(** * TrashMuncher-5000: the detection backend ([backend/server.py])

    A shallow embedding of the FastAPI backend: the detector adapter
    ([detect_trash]), the frame decoder ([preprocess_frame]), the
    per-connection loop ([websocket_detect]) with the connection registry
    ([ConnectionManager]), and the two readiness queries
    ([health_check], [model_info]).

    Conventions.
    - Python exceptions are values of [exn]; a call that may raise returns
      [result A].  Every exception listed derives from [Exception], so an
      [except Exception] clause catches all of them.
    - Class names are byte strings; [lower] and [title] are Python's
      [str.lower] and [str.title] on ASCII text (the class names of the
      YOLO models are ASCII).
    - Floats are only compared with 0.25 and converted ([float], [int]);
      no float arithmetic happens in the program.  A float is modelled by
      its exact value: a rational, an infinity or NaN.
    - Third-party calls (the YOLO model, [json.loads], [base64.b64decode],
      [Image.open], [np.array], [cv2.cvtColor]) are parameters. *)

From Stdlib Require Import ZArith QArith List String Ascii Bool Lia.
Import ListNotations.

Set Warnings "-register-all,-notation-for-abbreviation".

Local Close Scope Q_scope.

Local Open Scope string_scope.
Local Open Scope list_scope.

(** ** Exceptions and fallible computations *)

Inductive exn : Type :=
| KeyError
| IndexError
| TypeError
| AttributeError
| ValueError
| OverflowError
| JSONDecodeError
| BinasciiError
| UnidentifiedImageError
| Cv2Error
| RuntimeError
| WebSocketDisconnect
| HTTPException (status_code : Z) (detail : string).

Inductive result (A : Type) : Type :=
| Ok (a : A)
| Raise (e : exn).

Arguments Ok {A} a.
Arguments Raise {A} e.

Definition bind {A B : Type} (c : result A) (k : A -> result B) : result B :=
  match c with
  | Ok a => k a
  | Raise e => Raise e
  end.

Notation "x <- c ;; k" := (bind c (fun x => k))
  (at level 61, c at next level, right associativity).

(** [try: c except Exception: return d] *)
Definition try_except {A : Type} (c : result A) (d : A) : result A :=
  match c with
  | Ok a => Ok a
  | Raise _ => Ok d
  end.

Definition raises {A : Type} (c : result A) : Prop :=
  exists e, c = Raise e.

(** A [for] loop whose body may raise: the first exception aborts the loop. *)
Fixpoint for_each {A S : Type} (body : S -> A -> result S) (xs : list A) (s : S)
  : result S :=
  match xs with
  | [] => Ok s
  | x :: rest => s' <- body s x ;; for_each body rest s'
  end.

(** ** Strings: [str.lower], [str.title], [in], [str.split] *)

Module Str.

Definition is_upper (c : ascii) : bool :=
  let n := N_of_ascii c in ((65 <=? n) && (n <=? 90))%N.

Definition is_lower (c : ascii) : bool :=
  let n := N_of_ascii c in ((97 <=? n) && (n <=? 122))%N.

Definition is_cased (c : ascii) : bool := is_upper c || is_lower c.

Definition lower_char (c : ascii) : ascii :=
  if is_upper c then ascii_of_N (N_of_ascii c + 32) else c.

Definition upper_char (c : ascii) : ascii :=
  if is_lower c then ascii_of_N (N_of_ascii c - 32) else c.

Fixpoint lower (s : string) : string :=
  match s with
  | EmptyString => EmptyString
  | String c t => String (lower_char c) (lower t)
  end.

(** [str.title]: a cased character is upper-cased when the previous
    character is not cased, lower-cased otherwise. *)
Fixpoint title_from (previous_is_cased : bool) (s : string) : string :=
  match s with
  | EmptyString => EmptyString
  | String c t =>
      String (if previous_is_cased then lower_char c else upper_char c)
             (title_from (is_cased c) t)
  end.

Definition title (s : string) : string := title_from false s.

(** [needle in hay] *)
Fixpoint contains (needle hay : string) : bool :=
  String.prefix needle hay ||
  match hay with
  | EmptyString => false
  | String _ t => contains needle t
  end.

(** [s.split(sep)] for a one-character separator. *)
Fixpoint split (sep : ascii) (s : string) : list string :=
  match s with
  | EmptyString => [EmptyString]
  | String c t =>
      if Ascii.eqb c sep then EmptyString :: split sep t
      else match split sep t with
           | h :: r => String c h :: r
           | [] => [String c EmptyString]
           end
  end.

End Str.

(** [xs[i]] on a list *)
Definition list_getitem {A : Type} (xs : list A) (i : nat) : result A :=
  match nth_error xs i with
  | Some a => Ok a
  | None => Raise IndexError
  end.

(** ** Floats *)

Inductive pyfloat : Type :=
| Finite (q : Q)
| Infinity (negative : bool)
| NaN.

(** [x > y] *)
Definition float_gt (x y : pyfloat) : bool :=
  match x, y with
  | NaN, _ => false
  | _, NaN => false
  | Finite a, Finite b => negb (Qle_bool a b)
  | Finite _, Infinity negative => negative
  | Infinity negative, Finite _ => negb negative
  | Infinity nx, Infinity ny => negb nx && ny
  end.

(** [x <= y] *)
Definition float_le (x y : pyfloat) : bool :=
  match x, y with
  | NaN, _ => false
  | _, NaN => false
  | Finite a, Finite b => Qle_bool a b
  | Finite _, Infinity negative => negb negative
  | Infinity negative, Finite _ => negative
  | Infinity nx, Infinity ny => nx || negb ny
  end.

(** [float(x)] of a float32 scalar: widening is exact. *)
Definition py_float (x : pyfloat) : pyfloat := x.

(** [int(x)]: truncation toward zero; raises on NaN and the infinities. *)
Definition py_int (x : pyfloat) : result Z :=
  match x with
  | Finite q => Ok (Z.quot (Qnum q) (Zpos (Qden q)))
  | Infinity _ => Raise OverflowError
  | NaN => Raise ValueError
  end.

Definition threshold : pyfloat := Finite (1 # 4).

(** ** Dictionaries keyed by [int] (insertion-ordered) *)

Fixpoint dict_find {V : Type} (d : list (Z * V)) (k : Z) : option V :=
  match d with
  | [] => None
  | (k', v) :: rest => if Z.eqb k k' then Some v else dict_find rest k
  end.

(** [d[k]] *)
Definition dict_getitem {V : Type} (d : list (Z * V)) (k : Z) : result V :=
  match dict_find d k with
  | Some v => Ok v
  | None => Raise KeyError
  end.

(** [list(d.values())] *)
Definition dict_values {V : Type} (d : list (Z * V)) : list V := map snd d.

(** ** The detector adapter *)

(** One entry of [result.boxes]: the first rows of [xyxy], [conf], [cls]. *)
Record Box : Type := {
  xyxy : pyfloat * pyfloat * pyfloat * pyfloat;
  conf : pyfloat;
  cls : pyfloat
}.

Record Results : Type := {
  boxes : option (list Box)
}.

(** The dictionaries appended to [detections]. *)
Record Detection : Type := {
  bbox : list pyfloat;
  confidence : pyfloat;
  class_name : string;
  class_id : Z;
  original_class : string
}.

Definition trash_classes : list string :=
  [ "bottle"; "cup"; "fork"; "knife"; "spoon"; "bowl";
    "banana"; "apple"; "sandwich"; "orange"; "broccoli";
    "carrot"; "hot dog"; "pizza"; "donut"; "cake";
    "cell phone"; "book"; "scissors"; "teddy bear";
    "toothbrush"; "hair drier"; "backpack"; "handbag";
    "suitcase"; "frisbee"; "skis"; "snowboard"; "sports ball";
    "kite"; "baseball bat"; "baseball glove"; "skateboard";
    "surfboard"; "tennis racket"; "wine glass" ].

(** [x in xs] on a list of strings *)
Definition str_in (x : string) (xs : list string) : bool :=
  existsb (String.eqb x) xs.

Definition is_potential_trash (confidence : pyfloat) (class_name : string) : bool :=
  float_gt confidence threshold &&
  (str_in (Str.lower class_name) (map Str.lower trash_classes) ||
   Str.contains "trash" (Str.lower class_name) ||
   Str.contains "litter" (Str.lower class_name) ||
   Str.contains "waste" (Str.lower class_name) ||
   Str.contains "garbage" (Str.lower class_name) ||
   Str.contains "cigarette" (Str.lower class_name) ||
   Str.contains "can" (Str.lower class_name) ||
   Str.contains "bag" (Str.lower class_name)).

Definition food_classes : list string :=
  [ "banana"; "apple"; "orange"; "sandwich"; "pizza" ].

Definition trash_type (class_name : string) : string :=
  if Str.contains "bottle" (Str.lower class_name) then "Plastic Bottle"
  else if Str.contains "cup" (Str.lower class_name) then "Disposable Cup"
  else if Str.contains "can" (Str.lower class_name) then "Aluminum Can"
  else if Str.contains "bag" (Str.lower class_name) then "Plastic Bag"
  else if Str.contains "cigarette" (Str.lower class_name) then "Cigarette Butt"
  else if Str.contains "trash" (Str.lower class_name)
          || Str.contains "garbage" (Str.lower class_name)
       then Str.title class_name
  else if existsb (fun food => Str.contains food (Str.lower class_name)) food_classes
       then "Food Waste: " ++ Str.title class_name
  else "Potential Litter: " ++ Str.title class_name.

Section Detector.

(** The decoded pixel buffer ([np.ndarray]). *)
Variable ndarray : Type.

(** The loaded model: calling it runs inference; [names] maps class ids to
    class names ([None] when the object has no such attribute). *)
Record YOLO : Type := {
  predict : ndarray -> result (list Results);
  names : option (list (Z * string))
}.

Definition getattr_names (m : YOLO) : result (list (Z * string)) :=
  match names m with
  | Some d => Ok d
  | None => Raise AttributeError
  end.

(** The body of [for box in boxes]. *)
Definition process_box (m : YOLO) (detections : list Detection) (box : Box)
  : result (list Detection) :=
  let '(x1, y1, x2, y2) := xyxy box in
  let confidence := conf box in
  class_id <- py_int (cls box) ;;
  model_names <- getattr_names m ;;
  class_name <- dict_getitem model_names class_id ;;
  if is_potential_trash confidence class_name then
    Ok (detections ++
        [ {| bbox := [py_float x1; py_float y1; py_float x2; py_float y2];
             confidence := py_float confidence;
             class_name := trash_type class_name;
             class_id := class_id;
             original_class := class_name |} ])
  else Ok detections.

(** The body of [for result in results]. *)
Definition process_result (m : YOLO) (detections : list Detection) (r : Results)
  : result (list Detection) :=
  match boxes r with
  | Some bs => for_each (process_box m) bs detections
  | None => Ok detections
  end.

(** The [try] block of [detect_trash]. *)
Definition detect_trash_try (m : YOLO) (frame : ndarray) : result (list Detection) :=
  results <- predict m frame ;;
  for_each (process_result m) results [].

Definition detect_trash (model : option YOLO) (frame : ndarray)
  : result (list Detection) :=
  match model with
  | None => Ok []
  | Some m => try_except (detect_trash_try m frame) []
  end.

End Detector.

Arguments predict {ndarray} _ _.
Arguments names {ndarray} _.
Arguments getattr_names {ndarray} _.
Arguments process_box {ndarray} _ _ _.
Arguments process_result {ndarray} _ _ _.
Arguments detect_trash_try {ndarray} _ _.
Arguments detect_trash {ndarray} _ _.

(** ** JSON values ([json.loads] results, [json.dumps] arguments) *)

Inductive json : Type :=
| JNull
| JBool (b : bool)
| JInt (z : Z)
| JFloat (x : pyfloat)
| JStr (s : string)
| JList (items : list json)
| JDict (fields : list (string * json)).

Fixpoint fields_find (d : list (string * json)) (key : string) : option json :=
  match d with
  | [] => None
  | (k, v) :: rest => if String.eqb key k then Some v else fields_find rest key
  end.

(** [v[key]] with a string key: only a [dict] can be indexed that way. *)
Definition json_getitem (v : json) (key : string) : result json :=
  match v with
  | JDict d =>
      match fields_find d key with
      | Some x => Ok x
      | None => Raise KeyError
      end
  | _ => Raise TypeError
  end.

(** [v.get(key, default)] *)
Definition json_get (v : json) (key : string) (default : json) : result json :=
  match v with
  | JDict d =>
      match fields_find d key with
      | Some x => Ok x
      | None => Ok default
      end
  | _ => Raise AttributeError
  end.

(** [v.split(sep)]: only a [str] has the method. *)
Definition json_split (v : json) (sep : ascii) : result (list string) :=
  match v with
  | JStr s => Ok (Str.split sep s)
  | _ => Raise AttributeError
  end.

Definition detection_json (d : Detection) : json :=
  JDict [ ("bbox", JList (map JFloat (bbox d)));
          ("confidence", JFloat (confidence d));
          ("class_name", JStr (class_name d));
          ("class_id", JInt (class_id d));
          ("original_class", JStr (original_class d)) ].

Definition error_response : json :=
  JDict [ ("error", JStr "Failed to process frame");
          ("detections", JList []) ].

(** ** The connection registry *)

(** A websocket object; [list.remove] compares connections by identity. *)
Notation websocket := nat (only parsing).

Record ConnectionManager : Type := {
  active_connections : list websocket
}.

(** [xs.remove(x)]: drops the first occurrence, [ValueError] when absent. *)
Fixpoint list_remove (xs : list websocket) (x : websocket) : result (list websocket) :=
  match xs with
  | [] => Raise ValueError
  | y :: rest =>
      if Nat.eqb y x then Ok rest
      else rest' <- list_remove rest x ;; Ok (y :: rest')
  end.

(** [manager.connect]: [accept] is the outcome of [websocket.accept()]. *)
Definition connect (manager : ConnectionManager) (ws : websocket) (accept : result unit)
  : result ConnectionManager :=
  _ <- accept ;;
  Ok {| active_connections := active_connections manager ++ [ws] |}.

(** [manager.disconnect] *)
Definition disconnect (manager : ConnectionManager) (ws : websocket)
  : result ConnectionManager :=
  rest <- list_remove (active_connections manager) ws ;;
  Ok {| active_connections := rest |}.

(** ** The frame decoder and the session loop *)

(** What the transport delivers at one [receive_text]: a text message,
    together with the outcome the later [send_text] of that iteration will
    have, or an exception ([WebSocketDisconnect] when the client closed). *)
Inductive incoming : Type :=
| Text (data : string) (send_outcome : result unit)
| ReceiveRaises (e : exn).

(** What an observer of the connection sees, in order. *)
Inductive io_event : Type :=
| Received (data : string)
| Sent (message : json).

(** How a call of [websocket_detect] stands once the inputs are consumed. *)
Inductive outcome : Type :=
| Waiting                (* blocked in [receive_text] *)
| Returned (caught : exn) (* an [except] clause ran and the handler returned *)
| Propagated (e : exn).   (* an exception left the handler *)

Section Transport.

Variable ndarray : Type.
Variable image : Type.

Variable json_loads : string -> result json.
Variable b64decode : string -> result string.
Variable Image_open : string -> result image.
Variable np_array : image -> result ndarray.
Variable cvtColor_RGB2BGR : ndarray -> result ndarray.

(** The [try] block of [preprocess_frame]. *)
Definition preprocess_frame_try (frame_data : json) : result ndarray :=
  parts <- json_split frame_data ","%char ;;
  payload <- list_getitem parts 1 ;;
  image_data <- b64decode payload ;;
  img <- Image_open image_data ;;
  arr <- np_array img ;;
  cvtColor_RGB2BGR arr.

Definition preprocess_frame (frame_data : json) : result (option ndarray) :=
  try_except (frame <- preprocess_frame_try frame_data ;; Ok (Some frame)) None.

(** One iteration of [while True], from the received text to the argument
    of [json.dumps]. *)
Definition respond (model : option (YOLO ndarray)) (data : string) : result json :=
  frame_info <- json_loads data ;;
  frame_data <- json_getitem frame_info "frame" ;;
  frame <- preprocess_frame frame_data ;;
  match frame with
  | Some f =>
      detections <- detect_trash model f ;;
      timestamp <- json_get frame_info "timestamp" JNull ;;
      frame_count <- json_get frame_info "frame_count" (JInt 0) ;;
      Ok (JDict [ ("detections", JList (map detection_json detections));
                  ("timestamp", timestamp);
                  ("frame_count", frame_count) ])
  | None => Ok error_response
  end.

(** The [while True] loop: the events seen so far and, when the loop was
    left, the exception that ended it. *)
Fixpoint receive_loop (model : option (YOLO ndarray)) (inputs : list incoming)
  (trace : list io_event) : list io_event * option exn :=
  match inputs with
  | [] => (trace, None)
  | ReceiveRaises e :: _ => (trace, Some e)
  | Text data send_outcome :: rest =>
      match respond model data with
      | Raise e => (trace ++ [Received data], Some e)
      | Ok message =>
          match send_outcome with
          | Ok _ => receive_loop model rest (trace ++ [Received data; Sent message])
          | Raise e => (trace ++ [Received data], Some e)
          end
      end
  end.

(** The two [except] clauses: both deregister the connection. *)
Definition on_exception (manager : ConnectionManager) (ws : websocket) (e : exn)
  : result ConnectionManager :=
  match e with
  | WebSocketDisconnect => disconnect manager ws
  | _ => disconnect manager ws
  end.

Definition websocket_detect (model : option (YOLO ndarray)) (manager : ConnectionManager)
  (ws : websocket) (accept : result unit) (inputs : list incoming)
  : ConnectionManager * list io_event * outcome :=
  match connect manager ws accept with
  | Raise e => (manager, [], Propagated e)
  | Ok connected =>
      match receive_loop model inputs [] with
      | (trace, None) => (connected, trace, Waiting)
      | (trace, Some e) =>
          match on_exception connected ws e with
          | Ok manager' => (manager', trace, Returned e)
          | Raise e' => (connected, trace, Propagated e')
          end
      end
  end.

(** *** The readiness queries *)

Definition device_json (device : option string) : json :=
  match device with
  | Some d => JStr d
  | None => JNull
  end.

Definition health_check (model : option (YOLO ndarray)) (device : option string)
  : result json :=
  Ok (JDict [ ("status", JStr "healthy");
              ("model_loaded", JBool (match model with Some _ => true | None => false end));
              ("device", device_json device) ]).

Definition model_info (model : option (YOLO ndarray)) (device : option string)
  : result json :=
  match model with
  | None => Raise (HTTPException 503 "Model not loaded")
  | Some m =>
      Ok (JDict [ ("model_type", JStr "YOLOv8");
                  ("device", device_json device);
                  ("classes",
                   JList (map JStr (match names m with
                                    | Some d => dict_values d
                                    | None => []
                                    end)));
                  ("status", JStr "ready") ])
  end.

End Transport.

Arguments preprocess_frame_try {ndarray image} _ _ _ _ _.
Arguments preprocess_frame {ndarray image} _ _ _ _ _.
Arguments respond {ndarray image} _ _ _ _ _ _ _.
Arguments receive_loop {ndarray image} _ _ _ _ _ _ _ _.
Arguments websocket_detect {ndarray image} _ _ _ _ _ _ _ _ _ _.
Arguments health_check {ndarray} _ _.
Arguments model_info {ndarray} _ _.

(** ** Vocabulary of the specification *)

(** Every box the model reports for a frame, in emission order. *)
Definition all_boxes (results : list Results) : list Box :=
  flat_map (fun r => match boxes r with Some bs => bs | None => [] end) results.

(** A box together with its class id and the class name looked up for it. *)
Definition labelled_box : Type := Box * (Z * string).

Definition detection_of (lb : labelled_box) : Detection :=
  let '(box, (id, name)) := lb in
  let '(x1, y1, x2, y2) := xyxy box in
  {| bbox := [x1; y1; x2; y2];
     confidence := conf box;
     class_name := trash_type name;
     class_id := id;
     original_class := name |}.

Definition admitted (lb : labelled_box) : bool :=
  let '(box, (_, name)) := lb in is_potential_trash (conf box) name.

(** The class id and class name of a box resolve in the model. *)
Definition resolves {ndarray : Type} (m : YOLO ndarray) (lb : labelled_box) : Prop :=
  let '(box, (id, name)) := lb in
  py_int (cls box) = Ok id /\
  exists d, names m = Some d /\ dict_find d id = Some name.

(** The admission rule as the specification words it. *)
Definition trigger_substrings : list string :=
  [ "trash"; "litter"; "waste"; "garbage"; "cigarette"; "can"; "bag" ].

Definition admission_rule (confidence : pyfloat) (class_name : string) : Prop :=
  float_gt confidence threshold = true /\
  (In (Str.lower class_name) trash_classes \/
   exists t, In t trigger_substrings /\ Str.contains t (Str.lower class_name) = true).

(** The labelling rules as the specification words them: an ordered list of
    (check, label) pairs, the first check that holds decides. *)
Definition label_rules : list ((string -> bool) * (string -> string)) :=
  [ (Str.contains "bottle", fun _ => "Plastic Bottle");
    (Str.contains "cup", fun _ => "Disposable Cup");
    (Str.contains "can", fun _ => "Aluminum Can");
    (Str.contains "bag", fun _ => "Plastic Bag");
    (Str.contains "cigarette", fun _ => "Cigarette Butt");
    (fun s => Str.contains "trash" s || Str.contains "garbage" s, Str.title);
    (fun s => existsb (fun food => Str.contains food s) food_classes,
     fun raw => ("Food Waste: " ++ Str.title raw)%string) ].

Fixpoint first_match (rules : list ((string -> bool) * (string -> string)))
  (otherwise : string -> string) (raw : string) : string :=
  match rules with
  | [] => otherwise raw
  | (check, label) :: rest =>
      if check (Str.lower raw) then label raw else first_match rest otherwise raw
  end.

Definition display_label (raw : string) : string :=
  first_match label_rules (fun raw => ("Potential Litter: " ++ Str.title raw)%string) raw.

(** None of the seven checks that precede the food rule holds. *)
Definition no_earlier_check (raw : string) : Prop :=
  forall t, In t ["bottle"; "cup"; "can"; "bag"; "cigarette"; "trash"; "garbage"] ->
            Str.contains t (Str.lower raw) = false.

Definition is_food (raw : string) : Prop :=
  exists food, In food ["banana"; "apple"; "orange"; "sandwich"; "pizza"] /\
               Str.contains food (Str.lower raw) = true.

(** The value a result message echoes for [key]: the one of the frame
    message, [default] when the message has none. *)
Definition echoed (fields : list (string * json)) (key : string) (default : json) : json :=
  match fields_find fields key with
  | Some v => v
  | None => default
  end.

Definition result_message {ndarray : Type} (model : option (YOLO ndarray))
  (fields : list (string * json)) (frame : ndarray) : json :=
  JDict [ ("detections",
           JList (map detection_json
                      (match detect_trash model frame with
                       | Ok ds => ds
                       | Raise _ => []
                       end)));
          ("timestamp", echoed fields "timestamp" JNull);
          ("frame_count", echoed fields "frame_count" (JInt 0)) ].

Definition sent_messages (trace : list io_event) : list json :=
  flat_map (fun ev => match ev with Sent m => [m] | Received _ => [] end) trace.

(** What the specification asks for a text that cannot be used as a frame
    message: it is answered with the error message and the loop goes on
    with the next input. *)
Definition answered_as_decode_failure {ndarray image : Type}
  (json_loads : string -> result json)
  (b64decode : string -> result string)
  (Image_open : string -> result image)
  (np_array : image -> result ndarray)
  (cvtColor_RGB2BGR : ndarray -> result ndarray)
  (model : option (YOLO ndarray)) (data : string) (rest : list incoming)
  (trace : list io_event) : Prop :=
  receive_loop json_loads b64decode Image_open np_array cvtColor_RGB2BGR
    model (Text data (Ok tt) :: rest) trace
  = receive_loop json_loads b64decode Image_open np_array cvtColor_RGB2BGR
      model rest (trace ++ [Received data; Sent error_response]).

(** A parsed message without a usable "frame" entry: a dictionary that
    lacks the key, or a JSON value that is not a dictionary at all. *)
Definition lacks_frame_field (info : json) : Prop :=
  match info with
  | JDict fields => fields_find fields "frame" = None
  | _ => True
  end.

(** A frame message (text, parsed fields, decoded frame) that decodes. *)
Definition frame_message (ndarray : Type) : Type :=
  string * list (string * json) * ndarray.

Definition decodable {ndarray image : Type}
  (json_loads : string -> result json)
  (b64decode : string -> result string)
  (Image_open : string -> result image)
  (np_array : image -> result ndarray)
  (cvtColor_RGB2BGR : ndarray -> result ndarray)
  (msg : frame_message ndarray) : Prop :=
  let '(data, fields, frame) := msg in
  json_loads data = Ok (JDict fields) /\
  exists frame_data,
    fields_find fields "frame" = Some frame_data /\
    preprocess_frame b64decode Image_open np_array cvtColor_RGB2BGR frame_data
    = Ok (Some frame).

(** The arrival of a frame message on a live connection, the events an
    observer sees when it is answered before the next one is read, and the
    answer itself. *)
Definition arrival {ndarray : Type} (msg : frame_message ndarray) : incoming :=
  let '(data, _, _) := msg in Text data (Ok tt).

Definition exchange {ndarray : Type} (model : option (YOLO ndarray))
  (msg : frame_message ndarray) : list io_event :=
  let '(data, fields, frame) := msg in
  [Received data; Sent (result_message model fields frame)].

Definition answer {ndarray : Type} (model : option (YOLO ndarray))
  (msg : frame_message ndarray) : json :=
  let '(_, fields, frame) := msg in result_message model fields frame.

(** The registry after [manager.connect] accepted [ws]. *)
Definition registered (manager : ConnectionManager) (ws : websocket) : ConnectionManager :=
  {| active_connections := active_connections manager ++ [ws] |}.

(** What the sessions of other connections do to the shared registry while
    one session is running: they enter ([manager.connect]) and leave
    ([manager.disconnect]) with their own websockets. *)
Inductive registry_step : Type :=
| Enters (w : websocket)
| Leaves (w : websocket).

Definition step_websocket (s : registry_step) : websocket :=
  match s with
  | Enters w => w
  | Leaves w => w
  end.

Fixpoint run_registry (steps : list registry_step) (manager : ConnectionManager)
  : result ConnectionManager :=
  match steps with
  | [] => Ok manager
  | Enters w :: later =>
      manager' <- connect manager w (Ok tt) ;; run_registry later manager'
  | Leaves w :: later =>
      manager' <- disconnect manager w ;; run_registry later manager'
  end.

(** ** A small environment on which the statements are exercised

    Stand-ins for the third-party calls, defined on the handful of inputs
    the examples use: a model that reports four boxes, a JSON reader that
    knows three texts, and a decoder that accepts one payload. *)

Module Demo.

Definition coco_names : list (Z * string) :=
  [ (0, "person"); (39, "bottle"); (46, "banana"); (56, "chair") ]%Z.

Definition box_at (c : Q) (k : Z) : Box :=
  {| xyxy := (Finite 10, Finite 20, Finite 110, Finite 220);
     conf := Finite c;
     cls := Finite (inject_Z k) |}.

Definition reported : list Results :=
  [ {| boxes := Some [ box_at (9 # 10) 39; box_at (1 # 2) 46;
                        box_at (9 # 10) 56; box_at (1 # 5) 39 ] |};
    {| boxes := None |} ].

Definition yolo : YOLO string :=
  {| predict := fun _ => Ok reported; names := Some coco_names |}.

(** A model whose inference call fails. *)
Definition broken : YOLO string :=
  {| predict := fun _ => Raise RuntimeError; names := Some coco_names |}.

Definition bottle_detection : Detection :=
  {| bbox := [Finite 10; Finite 20; Finite 110; Finite 220];
     confidence := Finite (9 # 10);
     class_name := "Plastic Bottle";
     class_id := 39;
     original_class := "bottle" |}.

Definition banana_detection : Detection :=
  {| bbox := [Finite 10; Finite 20; Finite 110; Finite 220];
     confidence := Finite (1 # 2);
     class_name := "Food Waste: Banana";
     class_id := 46;
     original_class := "banana" |}.

Definition expected : list Detection := [bottle_detection; banana_detection].

(** A model that reports a class id it has no name for. *)
Definition nameless : YOLO string :=
  {| predict := fun _ => Ok [ {| boxes := Some [box_at (9 # 10) 39; box_at (9 # 10) 80] |} ];
     names := Some coco_names |}.

Definition quote : string := String (ascii_of_nat 34) EmptyString.

Definition key (k : string) : string := (quote ++ k ++ quote ++ ": ")%string.

(** A frame message with a frame counter and no timestamp. *)
Definition frame_text : string :=
  ("{" ++ key "frame" ++ quote ++ "data:image/png;base64,cGl4ZWxz" ++ quote ++ ", "
       ++ key "frame_count" ++ "7}")%string.

Definition frame_fields : list (string * json) :=
  [ ("frame", JStr "data:image/png;base64,cGl4ZWxz"); ("frame_count", JInt 7) ].

(** A frame message whose payload is not an image. *)
Definition corrupt_text : string :=
  ("{" ++ key "frame" ++ quote ++ "data:image/png;base64,Z2FyYmFnZQ==" ++ quote ++ "}")%string.

Definition corrupt_fields : list (string * json) :=
  [ ("frame", JStr "data:image/png;base64,Z2FyYmFnZQ==") ].

Definition json_loads (s : string) : result json :=
  if String.eqb s frame_text then Ok (JDict frame_fields)
  else if String.eqb s corrupt_text then Ok (JDict corrupt_fields)
  else if String.eqb s "{}" then Ok (JDict [])
  else Raise JSONDecodeError.

Definition b64decode (payload : string) : result string :=
  if String.eqb payload "cGl4ZWxz" then Ok "pixels"
  else if String.eqb payload "Z2FyYmFnZQ==" then Ok "garbage"
  else Raise BinasciiError.

Definition Image_open (bytes : string) : result string :=
  if String.eqb bytes "pixels" then Ok "pixels" else Raise UnidentifiedImageError.

Definition np_array (img : string) : result string := Ok img.

Definition cvtColor_RGB2BGR (arr : string) : result string := Ok arr.

Definition frame_msg : frame_message string := (frame_text, frame_fields, "pixels").

Definition loop := receive_loop json_loads b64decode Image_open np_array cvtColor_RGB2BGR.

Definition session := websocket_detect json_loads b64decode Image_open np_array cvtColor_RGB2BGR.

Definition registry : ConnectionManager := {| active_connections := [4; 9] |}.

End Demo.

(** ** Model loading ([load_trash_model], [startup_event])

    The module-level variables [model] and [device] are threaded as a
    state; an assignment made before an exception is raised stays in the
    state. *)

Section Loading.

Variable ndarray : Type.

Record Globals : Type := {
  model : option (YOLO ndarray);
  device : option string
}.

Definition prog (A : Type) : Type := Globals -> Globals * result A.

Definition ret {A : Type} (a : A) : prog A := fun g => (g, Ok a).

Definition lift {A : Type} (c : result A) : prog A := fun g => (g, c).

Definition bind_prog {A B : Type} (c : prog A) (k : A -> prog B) : prog B :=
  fun g =>
    match c g with
    | (g', Ok a) => k a g'
    | (g', Raise e) => (g', Raise e)
    end.

(** [try: c except Exception as e: handler e] *)
Definition try_prog {A : Type} (c : prog A) (handler : exn -> prog A) : prog A :=
  fun g =>
    match c g with
    | (g', Ok a) => (g', Ok a)
    | (g', Raise e) => handler e g'
    end.

Definition set_device (d : string) : prog unit :=
  fun g => ({| model := model g; device := Some d |}, Ok tt).

Definition set_model (m : YOLO ndarray) : prog unit :=
  fun g => ({| model := Some m; device := device g |}, Ok tt).

(** Reading [model] for a method call: [None] has no method. *)
Definition get_model : prog (YOLO ndarray) :=
  fun g =>
    match model g with
    | Some m => (g, Ok m)
    | None => (g, Raise AttributeError)
    end.

Definition get_device : prog (option string) := fun g => (g, Ok (device g)).

(** The outcomes of the third-party calls of [load_trash_model], one per
    call site: [torch.cuda.is_available()], the import of
    [huggingface_hub], [hf_hub_download(...)], [YOLO(model_path)], the two
    [YOLO('yolov8n.pt')] fallbacks and [model.to(device)]. *)
Record Loader : Type := {
  cuda_is_available : result bool;
  import_hf_hub_download : result unit;
  hf_hub_download : result string;
  YOLO_from : string -> result (YOLO ndarray);
  YOLO_base_inner : result (YOLO ndarray);
  YOLO_base_outer : result (YOLO ndarray);
  model_to : YOLO ndarray -> option string -> result unit
}.

Definition load_failed : exn := HTTPException 500 "Failed to load detection model".

Notation "x <~ c ;; k" := (bind_prog c (fun x => k))
  (at level 61, c at next level, right associativity).

Definition load_trash_model (env : Loader) : prog unit :=
  try_prog
    (cuda <~ lift (cuda_is_available env) ;;
     _ <~ set_device (if cuda : bool then "cuda" else "cpu") ;;
     _ <~ try_prog
            (_ <~ lift (import_hf_hub_download env) ;;
             try_prog
               (model_path <~ lift (hf_hub_download env) ;;
                m <~ lift (YOLO_from env model_path) ;;
                set_model m)
               (fun _ => m <~ lift (YOLO_base_inner env) ;; set_model m))
            (fun _ => m <~ lift (YOLO_base_outer env) ;; set_model m) ;;
     m <~ get_model ;;
     d <~ get_device ;;
     lift (model_to env m d))
    (fun _ => lift (Raise load_failed)).

Definition startup_event (env : Loader) : prog unit :=
  _ <~ load_trash_model env ;; ret tt.

(** The state of a freshly imported module. *)
Definition initial_globals : Globals := {| model := None; device := None |}.

(** The model the nested [try] blocks end up assigning, if any. *)
Definition chosen_model (env : Loader) : result (YOLO ndarray) :=
  match import_hf_hub_download env with
  | Raise _ => YOLO_base_outer env
  | Ok _ =>
      match (model_path <- hf_hub_download env ;; YOLO_from env model_path) with
      | Ok m => Ok m
      | Raise _ =>
          match YOLO_base_inner env with
          | Ok m => Ok m
          | Raise _ => YOLO_base_outer env
          end
      end
  end.

End Loading.

Arguments model {ndarray} _.
Arguments device {ndarray} _.
Arguments cuda_is_available {ndarray} _.
Arguments import_hf_hub_download {ndarray} _.
Arguments hf_hub_download {ndarray} _.
Arguments YOLO_from {ndarray} _ _.
Arguments YOLO_base_inner {ndarray} _.
Arguments YOLO_base_outer {ndarray} _.
Arguments model_to {ndarray} _ _ _.
Arguments load_trash_model {ndarray} _ _.
Arguments startup_event {ndarray} _ _.
Arguments initial_globals {ndarray}.
Arguments chosen_model {ndarray} _.

(** ** Further vocabulary *)

(** The value [load_trash_model] assigns to [device]. *)
Definition device_name (cuda : bool) : string := if cuda then "cuda" else "cpu".

(** A trace made of (received, sent) pairs only. *)
Fixpoint paired (trace : list io_event) : bool :=
  match trace with
  | [] => true
  | Received _ :: Sent _ :: rest => paired rest
  | _ => false
  end.

(** An arriving text that parses to a value with a "frame" entry, on a
    connection whose next send succeeds. *)
Definition answerable (json_loads : string -> result json) (i : incoming) : Prop :=
  exists data info frame_data,
    i = Text data (Ok tt) /\
    json_loads data = Ok info /\
    json_getitem info "frame" = Ok frame_data.

(** The decoding stages applied to the base64 segment of a data URI. *)
Definition decode_payload {ndarray image : Type}
  (b64decode : string -> result string)
  (Image_open : string -> result image)
  (np_array : image -> result ndarray)
  (cvtColor_RGB2BGR : ndarray -> result ndarray)
  (payload : string) : result ndarray :=
  image_data <- b64decode payload ;;
  img <- Image_open image_data ;;
  arr <- np_array img ;;
  cvtColor_RGB2BGR arr.

Definition is_json_string (v : json) : bool :=
  match v with
  | JStr _ => true
  | _ => false
  end.

(** Start-up scenarios on which the loading statements are exercised. *)
Module Startup.

(** Everything works: the trash-specific model is downloaded. *)
Definition online : Loader string :=
  {| cuda_is_available := Ok false;
     import_hf_hub_download := Ok tt;
     hf_hub_download := Ok "yolov8n-trash-detection.pt";
     YOLO_from := fun _ => Ok Demo.yolo;
     YOLO_base_inner := Ok Demo.broken;
     YOLO_base_outer := Ok Demo.broken;
     model_to := fun _ _ => Ok tt |}.

(** No network and no cached weights: every constructor fails. *)
Definition offline : Loader string :=
  {| cuda_is_available := Ok false;
     import_hf_hub_download := Ok tt;
     hf_hub_download := Raise RuntimeError;
     YOLO_from := fun _ => Raise RuntimeError;
     YOLO_base_inner := Raise RuntimeError;
     YOLO_base_outer := Raise RuntimeError;
     model_to := fun _ _ => Ok tt |}.

(** The download fails, the base model loads, but cannot be moved to the
    GPU. *)
Definition bad_gpu : Loader string :=
  {| cuda_is_available := Ok true;
     import_hf_hub_download := Ok tt;
     hf_hub_download := Raise RuntimeError;
     YOLO_from := fun _ => Raise RuntimeError;
     YOLO_base_inner := Ok Demo.yolo;
     YOLO_base_outer := Raise RuntimeError;
     model_to := fun _ _ => Raise RuntimeError |}.

End Startup.

(** ** The API tester ([backend_test.py])

    The HTTP part of [TrashFinderAPITester] and the control flow of [main].
    The websocket tests of [main] run a client thread and poll with
    time-outs; they enter [main] as a parameter. *)

(** [s.replace(old, new)] for a non-empty [old]: occurrences are replaced
    from left to right without overlap.  [skip] counts the characters of a
    replaced occurrence still to be dropped. *)
Fixpoint replace_from (old new : string) (skip : nat) (s : string) : string :=
  match s with
  | EmptyString => EmptyString
  | String c t =>
      match skip with
      | S k => replace_from old new k t
      | O =>
          if String.prefix old s
          then (new ++ replace_from old new (String.length old - 1) t)%string
          else String c (replace_from old new 0 t)
      end
  end.

Definition str_replace (s old new : string) : string := replace_from old new 0 s.

(** What the tester uses of a [requests] response; [response_json] is
    [None] when [response.json()] raises. *)
Record Response : Type := {
  status_code : Z;
  text : string;
  response_json : option json
}.

Record TrashFinderAPITester : Type := {
  base_url : string;
  tests_run : nat;
  tests_passed : nat;
  ws_url : string
}.

(** [TrashFinderAPITester.__init__]; [environ] is the value of
    [REACT_APP_BACKEND_URL], if set. *)
Definition new_tester (environ : option string) (base_url : string)
  : TrashFinderAPITester :=
  let base_url := match environ with Some url => url | None => base_url end in
  {| base_url := base_url;
     tests_run := 0;
     tests_passed := 0;
     ws_url := (str_replace base_url "http" "ws" ++ "/api/ws/detect")%string |}.

Section Client.

(** [requests.get] and [requests.post]; [None] when the call raises. *)
Variable requests_get : string -> option Response.
Variable requests_post : string -> option json -> option Response.

(** The block of [main] guarded by [health_ok and model_ok]. *)
Variable websocket_tests : TrashFinderAPITester -> TrashFinderAPITester.

Definition response_body (response : Response) : json :=
  match response_json response with
  | Some body => body
  | None => JDict []
  end.

Definition run_test (self : TrashFinderAPITester) (method endpoint : string)
  (expected_status : Z) (data : option json)
  : TrashFinderAPITester * (bool * json) :=
  let url := (base_url self ++ "/" ++ endpoint)%string in
  let self := {| base_url := base_url self;
                 tests_run := tests_run self + 1;
                 tests_passed := tests_passed self;
                 ws_url := ws_url self |} in
  let response :=
    if String.eqb method "GET" then requests_get url
    else if String.eqb method "POST" then requests_post url data
    else None (* [response] is unbound: the next line raises *) in
  match response with
  | Some response =>
      if Z.eqb (status_code response) expected_status then
        ({| base_url := base_url self;
            tests_run := tests_run self;
            tests_passed := tests_passed self + 1;
            ws_url := ws_url self |},
         (true, response_body response))
      else
        (self,
         (false,
          if String.eqb (text response) EmptyString then JDict []
          else response_body response))
  | None => (self, (false, JDict []))
  end.





End Client.

(** * Properties *)

(** ** Sanity checks of the string functions *)

Example title_hot_dog : Str.title "hot dog" = "Hot Dog".
Proof. reflexivity. Qed.

Example title_mixed_case : Str.title "tEDDY bear2go" = "Teddy Bear2Go".
Proof. reflexivity. Qed.

Example lower_mixed_case : Str.lower "Plastic BOTTLE" = "plastic bottle".
Proof. reflexivity. Qed.

Example split_data_uri :
  Str.split "," "data:image/jpeg;base64,AAAA" = ["data:image/jpeg;base64"; "AAAA"].
Proof. reflexivity. Qed.

Example trash_classes_are_lowercase : map Str.lower trash_classes = trash_classes.
Proof. reflexivity. Qed.

Example int_truncates_toward_zero :
  py_int (Finite (-7 # 2)) = Ok (-3)%Z /\ py_int (Finite (7 # 2)) = Ok 3%Z.
Proof. split; reflexivity. Qed.

(** ** The fallible-computation combinators *)

Lemma bind_ok {A B : Type} (c : result A) (k : A -> result B) (b : B) :
  (x <- c ;; k x) = Ok b -> exists a, c = Ok a /\ k a = Ok b.
Proof.
  destruct c as [a | e]; simpl; intros H.
  - exists a. split; [reflexivity | exact H].
  - discriminate H.
Qed.

Lemma try_except_total {A : Type} (c : result A) (d : A) :
  exists a, try_except c d = Ok a.
Proof.
  destruct c as [a | e]; simpl; eauto.
Qed.

Lemma try_except_raises {A : Type} (c : result A) (d : A) :
  raises c -> try_except c d = Ok d.
Proof.
  intros [e ->]. reflexivity.
Qed.

(** ** The detection loop *)

Section DetectorFacts.

Variable ndarray : Type.
Implicit Types (m : YOLO ndarray) (frame : ndarray).

Lemma process_box_ok m acc box ds :
  process_box m acc box = Ok ds ->
  exists id name,
    resolves m (box, (id, name)) /\
    ds = acc ++ (if admitted (box, (id, name))
                 then [detection_of (box, (id, name))] else []).
Proof.
  unfold process_box, resolves, admitted, detection_of, getattr_names, dict_getitem, py_float.
  destruct (xyxy box) as [[[x1 y1] x2] y2].
  intros H.
  apply bind_ok in H as (id & Hid & H).
  apply bind_ok in H as (d & Hd & H).
  apply bind_ok in H as (name & Hname & H).
  exists id, name.
  destruct (names m) as [d' |]; [| discriminate Hd].
  injection Hd as ->.
  destruct (dict_find d id) as [name' |] eqn:Hfind; [| discriminate Hname].
  injection Hname as ->.
  split.
  - split; [exact Hid | exists d; split; [reflexivity | exact Hfind]].
  - destruct (is_potential_trash (conf box) name); injection H as <-.
    + reflexivity.
    + symmetry. apply app_nil_r.
Qed.

Lemma for_each_boxes_ok m bs : forall acc ds,
  for_each (process_box m) bs acc = Ok ds ->
  exists labelled : list labelled_box,
    map fst labelled = bs /\
    Forall (resolves m) labelled /\
    ds = acc ++ map detection_of (filter admitted labelled).
Proof.
  induction bs as [| box bs IH]; intros acc ds H.
  - injection H as <-. exists []. split; [reflexivity |].
    split; [constructor | symmetry; apply app_nil_r].
  - cbn [for_each] in H.
    apply bind_ok in H as (acc' & Hbox & Hrest).
    apply process_box_ok in Hbox as (id & name & Hres & ->).
    apply IH in Hrest as (labelled & Hmap & Hall & ->).
    exists ((box, (id, name)) :: labelled).
    split; [cbn [map fst]; f_equal; exact Hmap |].
    split; [constructor; assumption |].
    cbn [filter].
    destruct (admitted (box, (id, name))).
    + cbn [map]. rewrite <- app_assoc. reflexivity.
    + rewrite app_nil_r. reflexivity.
Qed.

Lemma for_each_results_ok m results : forall acc ds,
  for_each (process_result m) results acc = Ok ds ->
  exists labelled : list labelled_box,
    map fst labelled = all_boxes results /\
    Forall (resolves m) labelled /\
    ds = acc ++ map detection_of (filter admitted labelled).
Proof.
  induction results as [| r results IH]; intros acc ds H.
  - injection H as <-. exists []. split; [reflexivity |].
    split; [constructor | symmetry; apply app_nil_r].
  - cbn [for_each] in H.
    apply bind_ok in H as (acc' & Hr & Hrest).
    apply IH in Hrest as (later & Hmap2 & Hall2 & ->).
    unfold process_result in Hr.
    change (all_boxes (r :: results))
      with ((match boxes r with Some bs => bs | None => [] end) ++ all_boxes results).
    destruct (boxes r) as [bs |].
    + apply for_each_boxes_ok in Hr as (first & Hmap1 & Hall1 & ->).
      exists (first ++ later).
      split; [rewrite map_app; f_equal; assumption |].
      split; [apply Forall_app; split; assumption |].
      rewrite filter_app, map_app, app_assoc. reflexivity.
    + injection Hr as <-.
      exists later. split; [exact Hmap2 |]. split; [exact Hall2 | reflexivity].
Qed.

Lemma detect_trash_try_ok m frame results ds :
  predict m frame = Ok results ->
  detect_trash_try m frame = Ok ds ->
  exists labelled : list labelled_box,
    map fst labelled = all_boxes results /\
    Forall (resolves m) labelled /\
    ds = map detection_of (filter admitted labelled).
Proof.
  unfold detect_trash_try. intros -> H. cbn [bind] in H.
  apply for_each_results_ok in H as (labelled & Hmap & Hall & ->).
  exists labelled. auto.
Qed.

(** Every emitted detection stems from an admitted box of the model's output. *)
Lemma emitted_detection (model : option (YOLO ndarray)) frame ds d :
  detect_trash model frame = Ok ds ->
  In d ds ->
  exists m results lb,
    model = Some m /\
    predict m frame = Ok results /\
    In (fst lb) (all_boxes results) /\
    resolves m lb /\
    admitted lb = true /\
    d = detection_of lb.
Proof.
  unfold detect_trash. intros H Hin.
  destruct model as [m |]; [| injection H as <-; destruct Hin].
  destruct (detect_trash_try m frame) as [ds' | e] eqn:Htry;
    cbn [try_except] in H; injection H as <-; [| destruct Hin].
  destruct (predict m frame) as [results | e] eqn:Hpred.
  - destruct (detect_trash_try_ok m frame results ds' Hpred Htry)
      as (labelled & Hmap & Hall & ->).
    apply in_map_iff in Hin as (lb & <- & Hlb).
    apply filter_In in Hlb as [Hlb Hadm].
    exists m, results, lb.
    repeat split; try assumption; try reflexivity.
    + rewrite <- Hmap. apply in_map. exact Hlb.
    + rewrite Forall_forall in Hall. apply Hall. exact Hlb.
  - unfold detect_trash_try in Htry. rewrite Hpred in Htry. discriminate Htry.
Qed.

End DetectorFacts.

Arguments emitted_detection {ndarray} _ _ _ _ _ _.
Arguments detect_trash_try_ok {ndarray} _ _ _ _ _ _.

Lemma detection_of_confidence (lb : labelled_box) :
  confidence (detection_of lb) = conf (fst lb).
Proof.
  destruct lb as [box [id name]]. unfold detection_of.
  destruct (xyxy box) as [[[x1 y1] x2] y2]. reflexivity.
Qed.

Lemma detection_of_original_class (lb : labelled_box) :
  original_class (detection_of lb) = snd (snd lb).
Proof.
  destruct lb as [box [id name]]. unfold detection_of.
  destruct (xyxy box) as [[[x1 y1] x2] y2]. reflexivity.
Qed.

Lemma detection_of_class_name (lb : labelled_box) :
  class_name (detection_of lb) = trash_type (snd (snd lb)).
Proof.
  destruct lb as [box [id name]]. unfold detection_of.
  destruct (xyxy box) as [[[x1 y1] x2] y2]. reflexivity.
Qed.

Lemma admitted_unfold (lb : labelled_box) :
  admitted lb = is_potential_trash (conf (fst lb)) (snd (snd lb)).
Proof.
  destruct lb as [box [id name]]. reflexivity.
Qed.

(** ** The admission rule *)

Lemma is_potential_trash_rule (c : pyfloat) (name : string) :
  is_potential_trash c name = true <-> admission_rule c name.
Proof.
  unfold is_potential_trash, admission_rule, str_in, trigger_substrings.
  change (map Str.lower trash_classes) with trash_classes.
  set (l := Str.lower name).
  rewrite andb_true_iff, !orb_true_iff, existsb_exists.
  split.
  - intros [Hc H]. split; [exact Hc |].
    destruct H as [[[[[[[(x & Hin & Heq) | H] | H] | H] | H] | H] | H] | H].
    + apply String.eqb_eq in Heq. subst x. left. exact Hin.
    + right. exists "trash". split; [cbn [In]; tauto | exact H].
    + right. exists "litter". split; [cbn [In]; tauto | exact H].
    + right. exists "waste". split; [cbn [In]; tauto | exact H].
    + right. exists "garbage". split; [cbn [In]; tauto | exact H].
    + right. exists "cigarette". split; [cbn [In]; tauto | exact H].
    + right. exists "can". split; [cbn [In]; tauto | exact H].
    + right. exists "bag". split; [cbn [In]; tauto | exact H].
  - intros [Hc [Hin | (t & Ht & Hcont)]]; (split; [exact Hc |]).
    + do 7 left. exists l. split; [exact Hin | apply String.eqb_refl].
    + cbn [In] in Ht.
      repeat (destruct Ht as [<- | Ht]; [tauto |]).
      destruct Ht.
Qed.

Lemma below_threshold_excluded (c : pyfloat) (name : string) :
  float_le c threshold = true -> is_potential_trash c name = false.
Proof.
  unfold is_potential_trash. intros H.
  replace (float_gt c threshold) with false; [reflexivity |].
  destruct c as [q | [|] |]; cbn in H |- *;
    try discriminate H; try reflexivity.
  rewrite H. reflexivity.
Qed.

Lemma chair_excluded (c : pyfloat) : is_potential_trash c "chair" = false.
Proof.
  unfold is_potential_trash.
  destruct (float_gt c threshold); reflexivity.
Qed.

(** C1. When inference and output processing complete, the result of
    [detect_trash] is, in emission order, the detections of exactly those
    model boxes that pass the admission rule: confidence strictly above
    0.25 and a lowercased class name that is an allow-list entry or
    contains one of the seven trigger substrings.  A box with confidence at
    most 0.25 is never admitted, and neither is class "chair". *)
Theorem admission_rule_decides_membership {ndarray : Type}
  (m : YOLO ndarray) (frame : ndarray) (results : list Results) (ds : list Detection) :
  predict m frame = Ok results ->
  detect_trash_try m frame = Ok ds ->
  detect_trash (Some m) frame = Ok ds /\
  (exists labelled : list labelled_box,
      map fst labelled = all_boxes results /\
      Forall (resolves m) labelled /\
      ds = map detection_of (filter admitted labelled) /\
      forall lb, In lb labelled ->
        (In (detection_of lb) ds <-> admission_rule (conf (fst lb)) (snd (snd lb)))) /\
  (forall c name, is_potential_trash c name = true <-> admission_rule c name) /\
  (forall c name, float_le c threshold = true -> is_potential_trash c name = false) /\
  (forall c, is_potential_trash c "chair" = false).
Proof.
  intros Hpred Htry.
  split; [unfold detect_trash; rewrite Htry; reflexivity |].
  split; [| split; [exact is_potential_trash_rule |
                    split; [exact below_threshold_excluded | exact chair_excluded]]].
  destruct (detect_trash_try_ok m frame results ds Hpred Htry)
    as (labelled & Hmap & Hall & Hds).
  exists labelled.
  split; [exact Hmap |]. split; [exact Hall |]. split; [exact Hds |].
  intros lb Hlb. split.
  - intros Hin. subst ds.
    apply in_map_iff in Hin as (lb' & Heq & Hlb').
    apply filter_In in Hlb' as [_ Hadm].
    rewrite admitted_unfold in Hadm.
    apply is_potential_trash_rule.
    rewrite <- (detection_of_confidence lb), <- (detection_of_original_class lb), <- Heq.
    rewrite detection_of_confidence, detection_of_original_class. exact Hadm.
  - intros Hrule. subst ds.
    apply in_map. apply filter_In. split; [assumption |].
    rewrite admitted_unfold. apply is_potential_trash_rule. exact Hrule.
Qed.

(** ** The display label *)

Lemma trash_type_first_match (raw : string) : trash_type raw = display_label raw.
Proof. reflexivity. Qed.

(** C2. The display label of every emitted detection is the label picked by
    the first rule, in the listed order, whose check holds on the lowercased
    raw class name; "trash can" therefore gets "Aluminum Can". *)
Theorem display_label_first_match_wins {ndarray : Type}
  (model : option (YOLO ndarray)) (frame : ndarray) (ds : list Detection) (d : Detection) :
  detect_trash model frame = Ok ds ->
  In d ds ->
  class_name d = display_label (original_class d) /\
  (forall raw, trash_type raw = display_label raw) /\
  trash_type "trash can" = "Aluminum Can".
Proof.
  intros Hrun Hin.
  destruct (emitted_detection model frame ds d Hrun Hin)
    as (m & results & lb & _ & _ & _ & _ & _ & ->).
  split; [| split; [exact trash_type_first_match | reflexivity]].
  rewrite detection_of_class_name, detection_of_original_class.
  apply trash_type_first_match.
Qed.

Lemma admission_rule_decides_membership_witness :
  predict Demo.yolo "pixels" = Ok Demo.reported /\
  detect_trash_try Demo.yolo "pixels" = Ok Demo.expected /\
  detect_trash (Some Demo.yolo) "pixels" = Ok Demo.expected.
Proof.
  assert (Hpred : predict Demo.yolo "pixels" = Ok Demo.reported) by reflexivity.
  assert (Htry : detect_trash_try Demo.yolo "pixels" = Ok Demo.expected) by reflexivity.
  split; [exact Hpred | split; [exact Htry |]].
  exact (proj1 (admission_rule_decides_membership
                  Demo.yolo "pixels" Demo.reported Demo.expected Hpred Htry)).
Defined.

Lemma display_label_first_match_wins_witness :
  detect_trash (Some Demo.yolo) "pixels" = Ok Demo.expected /\
  In Demo.bottle_detection Demo.expected /\
  class_name Demo.bottle_detection = display_label (original_class Demo.bottle_detection).
Proof.
  assert (Hrun : detect_trash (Some Demo.yolo) "pixels" = Ok Demo.expected) by reflexivity.
  assert (Hin : In Demo.bottle_detection Demo.expected) by (left; reflexivity).
  split; [exact Hrun | split; [exact Hin |]].
  exact (proj1 (display_label_first_match_wins
                  (Some Demo.yolo) "pixels" Demo.expected Demo.bottle_detection Hrun Hin)).
Defined.

(** ** Totality of [detect_trash] *)

Example unknown_class_id_discards_everything :
  raises (detect_trash_try Demo.nameless "pixels") /\
  detect_trash (Some Demo.nameless) "pixels" = Ok [].
Proof.
  split; [exists KeyError |]; reflexivity.
Qed.

(** C5. [detect_trash] returns a detection list on every input: the empty
    list when no model is loaded, and the empty list when inference or the
    processing of its output raises. *)
Theorem detect_trash_never_raises {ndarray : Type} :
  (forall (model : option (YOLO ndarray)) frame,
      exists ds, detect_trash model frame = Ok ds) /\
  (forall frame : ndarray, detect_trash None frame = Ok []) /\
  (forall (m : YOLO ndarray) frame,
      raises (detect_trash_try m frame) -> detect_trash (Some m) frame = Ok []).
Proof.
  split; [| split].
  - intros [m |] frame; cbn [detect_trash].
    + apply try_except_total.
    + exists []. reflexivity.
  - reflexivity.
  - intros m frame H. cbn [detect_trash]. apply try_except_raises. exact H.
Qed.

Lemma detect_trash_never_raises_witness :
  raises (detect_trash_try Demo.broken "pixels") /\
  detect_trash (Some Demo.broken) "pixels" = Ok [].
Proof.
  assert (H : raises (detect_trash_try Demo.broken "pixels"))
    by (exists RuntimeError; reflexivity).
  split; [exact H |].
  exact (proj2 (proj2 detect_trash_never_raises) Demo.broken "pixels" H).
Defined.

(** ** The food rule *)

Lemma trash_type_food (raw : string) :
  no_earlier_check raw ->
  (trash_type raw = ("Food Waste: " ++ Str.title raw)%string <-> is_food raw) /\
  (~ is_food raw -> trash_type raw = ("Potential Litter: " ++ Str.title raw)%string).
Proof.
  unfold no_earlier_check, is_food, trash_type. intros H.
  rewrite (H "bottle"), (H "cup"), (H "can"), (H "bag"), (H "cigarette"),
    (H "trash"), (H "garbage") by (cbn [In]; tauto).
  cbn [orb].
  change ["banana"; "apple"; "orange"; "sandwich"; "pizza"] with food_classes.
  destruct (existsb (fun food => Str.contains food (Str.lower raw)) food_classes) eqn:E.
  - apply existsb_exists in E. split.
    + split; [intros _; exact E | reflexivity].
    + intros Hno. contradiction.
  - split.
    + split.
      * intros Heq. discriminate Heq.
      * intros Hfood. apply existsb_exists in Hfood. congruence.
    + reflexivity.
Qed.

Lemma banana_has_no_earlier_check : no_earlier_check "banana".
Proof.
  intros t Ht. cbn [In] in Ht.
  repeat (destruct Ht as [<- | Ht]; [reflexivity |]).
  destruct Ht.
Qed.

(** C7. For an emitted detection whose lowercased class name passes none of
    the bottle, cup, can, bag, cigarette, trash and garbage checks, the label
    is "Food Waste: <Title>" exactly when the lowercased name contains
    banana, apple, orange, sandwich or pizza, and "Potential Litter: <Title>"
    otherwise; "banana" at confidence 0.5 is admitted and labelled
    "Food Waste: Banana". *)
Theorem food_waste_label {ndarray : Type}
  (model : option (YOLO ndarray)) (frame : ndarray) (ds : list Detection) (d : Detection) :
  detect_trash model frame = Ok ds ->
  In d ds ->
  no_earlier_check (original_class d) ->
  (class_name d = ("Food Waste: " ++ Str.title (original_class d))%string
   <-> is_food (original_class d)) /\
  (~ is_food (original_class d) ->
   class_name d = ("Potential Litter: " ++ Str.title (original_class d))%string) /\
  is_potential_trash (Finite (1 # 2)) "banana" = true /\
  trash_type "banana" = "Food Waste: Banana".
Proof.
  intros Hrun Hin Hnone.
  destruct (emitted_detection model frame ds d Hrun Hin)
    as (m & results & lb & _ & _ & _ & _ & _ & ->).
  rewrite detection_of_class_name.
  rewrite detection_of_original_class in Hnone |- *.
  destruct (trash_type_food _ Hnone) as [Hiff Helse].
  split; [exact Hiff |]. split; [exact Helse |]. split; reflexivity.
Qed.

Lemma food_waste_label_witness :
  detect_trash (Some Demo.yolo) "pixels" = Ok Demo.expected /\
  In Demo.banana_detection Demo.expected /\
  no_earlier_check (original_class Demo.banana_detection) /\
  (class_name Demo.banana_detection = "Food Waste: Banana"
   <-> is_food (original_class Demo.banana_detection)).
Proof.
  assert (Hrun : detect_trash (Some Demo.yolo) "pixels" = Ok Demo.expected) by reflexivity.
  assert (Hin : In Demo.banana_detection Demo.expected) by (right; left; reflexivity).
  assert (Hnone : no_earlier_check (original_class Demo.banana_detection))
    by exact banana_has_no_earlier_check.
  split; [exact Hrun | split; [exact Hin | split; [exact Hnone |]]].
  exact (proj1 (food_waste_label (Some Demo.yolo) "pixels" Demo.expected
                  Demo.banana_detection Hrun Hin Hnone)).
Defined.

(** ** Field pass-through *)

(** C10. Every emitted detection carries the coordinates, the confidence,
    the integer class id and the looked-up class name of one of the model's
    boxes unchanged; only [class_name] is computed, from the raw class
    name. *)
Theorem raw_fields_pass_through {ndarray : Type}
  (model : option (YOLO ndarray)) (frame : ndarray) (ds : list Detection) (d : Detection) :
  detect_trash model frame = Ok ds ->
  In d ds ->
  exists m results box model_names,
    model = Some m /\
    predict m frame = Ok results /\
    In box (all_boxes results) /\
    names m = Some model_names /\
    (let '(x1, y1, x2, y2) := xyxy box in
     bbox d = [py_float x1; py_float y1; py_float x2; py_float y2]) /\
    confidence d = py_float (conf box) /\
    py_int (cls box) = Ok (class_id d) /\
    dict_find model_names (class_id d) = Some (original_class d) /\
    class_name d = trash_type (original_class d).
Proof.
  intros Hrun Hin.
  destruct (emitted_detection model frame ds d Hrun Hin)
    as (m & results & [box [id name]] & Hm & Hpred & Hbox & Hres & _ & ->).
  destruct Hres as (Hid & model_names & Hnames & Hfind).
  exists m, results, box, model_names.
  unfold detection_of, py_float.
  destruct (xyxy box) as [[[x1 y1] x2] y2]. cbn.
  repeat (split; [assumption || reflexivity |]). reflexivity.
Qed.

Lemma raw_fields_pass_through_witness :
  detect_trash (Some Demo.yolo) "pixels" = Ok Demo.expected /\
  In Demo.bottle_detection Demo.expected /\
  exists m results box model_names,
    Some Demo.yolo = Some m /\
    predict m "pixels" = Ok results /\
    In box (all_boxes results) /\
    names m = Some model_names /\
    (let '(x1, y1, x2, y2) := xyxy box in
     bbox Demo.bottle_detection = [py_float x1; py_float y1; py_float x2; py_float y2]) /\
    confidence Demo.bottle_detection = py_float (conf box) /\
    py_int (cls box) = Ok (class_id Demo.bottle_detection) /\
    dict_find model_names (class_id Demo.bottle_detection)
      = Some (original_class Demo.bottle_detection) /\
    class_name Demo.bottle_detection = trash_type (original_class Demo.bottle_detection).
Proof.
  assert (Hrun : detect_trash (Some Demo.yolo) "pixels" = Ok Demo.expected) by reflexivity.
  assert (Hin : In Demo.bottle_detection Demo.expected) by (left; reflexivity).
  split; [exact Hrun | split; [exact Hin |]].
  exact (raw_fields_pass_through (Some Demo.yolo) "pixels" Demo.expected
           Demo.bottle_detection Hrun Hin).
Defined.

(** ** The connection registry *)

Lemma list_remove_appended (xs : list websocket) (ws : websocket) :
  ~ In ws xs -> list_remove (xs ++ [ws]) ws = Ok xs.
Proof.
  induction xs as [| y xs IH]; intros Hnot; cbn [app list_remove].
  - rewrite Nat.eqb_refl. reflexivity.
  - destruct (Nat.eqb y ws) eqn:E.
    + apply Nat.eqb_eq in E. exfalso. apply Hnot. left. exact E.
    + rewrite IH; [reflexivity |]. intros Hin. apply Hnot. right. exact Hin.
Qed.

Lemma list_remove_single_occurrence (xs : list websocket) (ws : websocket) :
  count_occ Nat.eq_dec xs ws = 1 ->
  exists rest, list_remove xs ws = Ok rest /\ ~ In ws rest.
Proof.
  induction xs as [| y xs IH]; intros Hcount.
  - discriminate Hcount.
  - cbn [count_occ] in Hcount. cbn [list_remove].
    destruct (Nat.eq_dec y ws) as [-> | Hne].
    + rewrite Nat.eqb_refl. exists xs. split; [reflexivity |].
      apply (count_occ_not_In Nat.eq_dec). lia.
    + destruct (Nat.eqb y ws) eqn:E; [apply Nat.eqb_eq in E; contradiction |].
      destruct (IH Hcount) as (rest & -> & Hrest).
      exists (y :: rest). split; [reflexivity |].
      intros [Heq | Hin]; [exact (Hne Heq) | exact (Hrest Hin)].
Qed.

Lemma registered_once (manager : ConnectionManager) (ws : websocket) :
  ~ In ws (active_connections manager) ->
  count_occ Nat.eq_dec (active_connections (registered manager ws)) ws = 1.
Proof.
  intros Hnot. unfold registered. cbn [active_connections].
  rewrite count_occ_app.
  apply (count_occ_not_In Nat.eq_dec) in Hnot. rewrite Hnot.
  cbn [count_occ]. destruct (Nat.eq_dec ws ws); [reflexivity | contradiction].
Qed.

Lemma disconnect_registered (manager : ConnectionManager) (ws : websocket) :
  ~ In ws (active_connections manager) ->
  disconnect (registered manager ws) ws = Ok manager.
Proof.
  intros Hnot. unfold disconnect, registered. cbn [active_connections].
  rewrite (list_remove_appended _ _ Hnot). destruct manager. reflexivity.
Qed.

Lemma list_remove_other (xs : list websocket) (w ws : websocket) : forall rest,
  w <> ws ->
  list_remove xs w = Ok rest ->
  count_occ Nat.eq_dec rest ws = count_occ Nat.eq_dec xs ws.
Proof.
  induction xs as [| y xs IH]; intros rest Hne H; cbn [list_remove] in H.
  - discriminate H.
  - destruct (Nat.eqb y w) eqn:E.
    + apply Nat.eqb_eq in E. subst y. injection H as <-.
      cbn [count_occ]. destruct (Nat.eq_dec w ws); [contradiction | reflexivity].
    + apply bind_ok in H as (rest' & Hrest' & H). injection H as <-.
      cbn [count_occ]. rewrite (IH rest' Hne Hrest'). reflexivity.
Qed.

(** Sessions of other websockets leave the number of registrations of [ws]
    unchanged. *)
Lemma other_sessions_keep_count (ws : websocket) (steps : list registry_step) :
  forall manager manager',
  Forall (fun s => step_websocket s <> ws) steps ->
  run_registry steps manager = Ok manager' ->
  count_occ Nat.eq_dec (active_connections manager') ws
  = count_occ Nat.eq_dec (active_connections manager) ws.
Proof.
  induction steps as [| s steps IH]; intros manager manager' Hothers Hrun.
  - injection Hrun as <-. reflexivity.
  - inversion Hothers as [| ? ? Hs Hlater]; subst.
    destruct s as [w | w]; cbn [run_registry step_websocket] in Hrun, Hs.
    + cbn [connect bind] in Hrun.
      rewrite (IH _ _ Hlater Hrun). cbn [active_connections].
      rewrite count_occ_app. cbn [count_occ].
      destruct (Nat.eq_dec w ws); [contradiction | lia].
    + apply bind_ok in Hrun as (manager1 & Hleave & Hrun).
      rewrite (IH _ _ Hlater Hrun).
      unfold disconnect in Hleave.
      apply bind_ok in Hleave as (rest & Hrest & Hleave). injection Hleave as <-.
      cbn [active_connections]. exact (list_remove_other _ _ _ _ Hs Hrest).
Qed.

(** ** The session loop *)

Section TransportFacts.

Variable ndarray : Type.
Variable image : Type.
Variable json_loads : string -> result json.
Variable b64decode : string -> result string.
Variable Image_open : string -> result image.
Variable np_array : image -> result ndarray.
Variable cvtColor_RGB2BGR : ndarray -> result ndarray.

Notation preprocess_try :=
  (preprocess_frame_try b64decode Image_open np_array cvtColor_RGB2BGR).
Notation preprocess :=
  (preprocess_frame b64decode Image_open np_array cvtColor_RGB2BGR).
Notation reply :=
  (respond json_loads b64decode Image_open np_array cvtColor_RGB2BGR).
Notation loop :=
  (receive_loop json_loads b64decode Image_open np_array cvtColor_RGB2BGR).
Notation session :=
  (websocket_detect json_loads b64decode Image_open np_array cvtColor_RGB2BGR).

Implicit Types (model : option (YOLO ndarray)) (manager : ConnectionManager).

Lemma detect_trash_total model (frame : ndarray) :
  exists ds, detect_trash model frame = Ok ds.
Proof.
  destruct model as [m |]; cbn [detect_trash].
  - apply try_except_total.
  - exists []. reflexivity.
Qed.

Lemma preprocess_total (frame_data : json) :
  exists r, preprocess frame_data = Ok r.
Proof.
  unfold preprocess_frame. apply try_except_total.
Qed.

Lemma preprocess_failure (frame_data : json) :
  raises (preprocess_try frame_data) -> preprocess frame_data = Ok None.
Proof.
  intros [e He]. unfold preprocess_frame. rewrite He. reflexivity.
Qed.

Lemma loop_continues model (earlier rest : list incoming) : forall trace trace',
  loop model earlier trace = (trace', None) ->
  loop model (earlier ++ rest) trace = loop model rest trace'.
Proof.
  induction earlier as [| i earlier IH]; intros trace trace' H.
  - injection H as <-. reflexivity.
  - cbn [app receive_loop] in H |- *.
    destruct i as [data send_outcome | e]; [| discriminate H].
    destruct (reply model data) as [message | e]; [| discriminate H].
    destruct send_outcome as [u | e]; [| discriminate H].
    apply IH. exact H.
Qed.

Lemma respond_unusable model (data : string) :
  raises (json_loads data) \/
  (exists info, json_loads data = Ok info /\ lacks_frame_field info) ->
  raises (reply model data).
Proof.
  unfold respond. intros [[e ->] | (info & -> & Hlacks)].
  - exists e. reflexivity.
  - cbn [bind]. destruct info; cbn [json_getitem lacks_frame_field] in *;
      try (exists TypeError; reflexivity).
    rewrite Hlacks. exists KeyError. reflexivity.
Qed.

Lemma respond_decode_failure model (data : string) (info frame_data : json) :
  json_loads data = Ok info ->
  json_getitem info "frame" = Ok frame_data ->
  raises (preprocess_try frame_data) ->
  reply model data = Ok error_response.
Proof.
  intros Hload Hframe Hfail. unfold respond.
  rewrite Hload. cbn [bind]. rewrite Hframe. cbn [bind].
  rewrite (preprocess_failure _ Hfail). reflexivity.
Qed.

Lemma respond_decodable model (msg : frame_message ndarray) :
  decodable json_loads b64decode Image_open np_array cvtColor_RGB2BGR msg ->
  reply model (fst (fst msg)) = Ok (answer model msg).
Proof.
  destruct msg as [[data fields] frame].
  intros (Hload & frame_data & Hfind & Hdecode).
  unfold respond, answer, result_message, echoed. cbn [fst].
  rewrite Hload. cbn [bind json_getitem]. rewrite Hfind. cbn [bind].
  rewrite Hdecode. cbn [bind].
  destruct (detect_trash_total model frame) as (ds & ->). cbn [bind json_get].
  destruct (fields_find fields "timestamp"), (fields_find fields "frame_count");
    reflexivity.
Qed.

Lemma loop_decodable model (msgs : list (frame_message ndarray)) : forall trace,
  Forall (decodable json_loads b64decode Image_open np_array cvtColor_RGB2BGR) msgs ->
  loop model (map arrival msgs) trace = (trace ++ flat_map (exchange model) msgs, None).
Proof.
  induction msgs as [| msg msgs IH]; intros trace Hall.
  - cbn. rewrite app_nil_r. reflexivity.
  - inversion Hall as [| ? ? Hmsg Hrest]; subst.
    pose proof (respond_decodable model msg Hmsg) as Hreply.
    destruct msg as [[data fields] frame]. cbn [fst] in Hreply.
    cbn [map arrival receive_loop flat_map]. rewrite Hreply.
    rewrite (IH _ Hrest). cbn [exchange answer].
    rewrite <- app_assoc. reflexivity.
Qed.

Lemma sent_messages_exchanges model (msgs : list (frame_message ndarray)) :
  sent_messages (flat_map (exchange model) msgs) = map (answer model) msgs.
Proof.
  induction msgs as [| [[data fields] frame] msgs IH]; [reflexivity |].
  cbn [flat_map exchange answer map]. unfold sent_messages in *.
  rewrite flat_map_app, IH. reflexivity.
Qed.

Lemma no_comma_no_payload (s : string) :
  Str.contains "," s = false -> exists h, Str.split "," s = [h].
Proof.
  induction s as [| c t IH]; intros H.
  - exists EmptyString. reflexivity.
  - cbn [Str.contains String.prefix] in H.
    apply orb_false_iff in H as [Hhead Htail].
    destruct (IH Htail) as (h & Hsplit).
    cbn [Str.split]. rewrite Hsplit.
    destruct (Ascii.eqb c ",") eqn:E.
    + apply Ascii.eqb_eq in E. subst c.
      destruct (ascii_dec "," ","); [| contradiction].
      destruct t; discriminate Hhead.
    + exists (String c h). reflexivity.
Qed.

Lemma on_exception_disconnects manager (ws : websocket) (e : exn) :
  on_exception manager ws e = disconnect manager ws.
Proof.
  destruct e; reflexivity.
Qed.

(** C3 (as amended). A text that is not valid JSON, or whose parsed value
    has no "frame" entry, is not answered: the exception reaches the outer
    handler of the session, which removes the websocket from the active
    connections and returns; the inputs after it are never read. *)
Theorem unusable_message_ends_session model manager (ws : websocket)
  (earlier : list incoming) (trace : list io_event)
  (data : string) (send_outcome : result unit) (rest : list incoming) :
  ~ In ws (active_connections manager) ->
  loop model earlier [] = (trace, None) ->
  raises (json_loads data) \/
  (exists info, json_loads data = Ok info /\ lacks_frame_field info) ->
  exists e,
    reply model data = Raise e /\
    session model manager ws (Ok tt) (earlier ++ Text data send_outcome :: rest)
    = (manager, trace ++ [Received data], Returned e).
Proof.
  intros Hfresh Hearlier Hbad.
  destruct (respond_unusable model data Hbad) as [e He].
  exists e. split; [exact He |].
  unfold websocket_detect. cbn [connect bind]. fold (registered manager ws).
  rewrite (loop_continues model earlier _ _ _ Hearlier).
  cbn [receive_loop]. rewrite He.
  rewrite on_exception_disconnects, (disconnect_registered _ _ Hfresh).
  reflexivity.
Qed.

(** C4. When decoding the frame payload fails, [preprocess_frame] returns
    [None] instead of raising, and the session sends exactly the error
    message and goes on with the next input.  A payload without a comma,
    a payload that is not base64, and bytes that are not an image are such
    failures. *)
Theorem decode_failure_reported model (data : string) (info frame_data : json)
  (rest : list incoming) (trace : list io_event) :
  json_loads data = Ok info ->
  json_getitem info "frame" = Ok frame_data ->
  raises (preprocess_try frame_data) ->
  preprocess frame_data = Ok None /\
  loop model (Text data (Ok tt) :: rest) trace
  = loop model rest (trace ++ [Received data; Sent error_response]) /\
  error_response
  = JDict [ ("error", JStr "Failed to process frame"); ("detections", JList []) ] /\
  (forall s, Str.contains "," s = false -> raises (preprocess_try (JStr s))) /\
  (forall s payload,
      list_getitem (Str.split "," s) 1 = Ok payload ->
      raises (b64decode payload) ->
      raises (preprocess_try (JStr s))) /\
  (forall s payload bytes,
      list_getitem (Str.split "," s) 1 = Ok payload ->
      b64decode payload = Ok bytes ->
      raises (Image_open bytes) ->
      raises (preprocess_try (JStr s))).
Proof.
  intros Hload Hframe Hfail.
  split; [exact (preprocess_failure _ Hfail) |].
  split.
  { cbn [receive_loop].
    rewrite (respond_decode_failure model data info frame_data Hload Hframe Hfail).
    reflexivity. }
  split; [reflexivity |].
  unfold preprocess_frame_try. cbn [json_split bind].
  split; [| split].
  - intros s Hnone. destruct (no_comma_no_payload s Hnone) as (h & ->).
    exists IndexError. reflexivity.
  - intros s payload Hpayload [e He].
    rewrite Hpayload. cbn [bind]. rewrite He. exists e. reflexivity.
  - intros s payload bytes Hpayload Hbytes [e He].
    rewrite Hpayload. cbn [bind]. rewrite Hbytes. cbn [bind]. rewrite He.
    exists e. reflexivity.
Qed.

(** C6. A session that receives N decodable frame messages answers each
    one before reading the next: the connection sees, in order, message i
    followed by result i, the results are exactly N, and result i carries
    the detections of frame i, the timestamp of message i ([null] when the
    message has none) and its frame_count (0 when it has none).  The
    session is then waiting for the next message. *)
Theorem one_result_per_frame model manager (ws : websocket)
  (msgs : list (frame_message ndarray)) :
  Forall (decodable json_loads b64decode Image_open np_array cvtColor_RGB2BGR) msgs ->
  session model manager ws (Ok tt) (map arrival msgs)
  = (registered manager ws, flat_map (exchange model) msgs, Waiting) /\
  sent_messages (flat_map (exchange model) msgs) = map (answer model) msgs /\
  List.length (sent_messages (flat_map (exchange model) msgs)) = List.length msgs.
Proof.
  intros Hall.
  split; [| split].
  - unfold websocket_detect. cbn [connect bind]. fold (registered manager ws).
    rewrite (loop_decodable model msgs [] Hall). reflexivity.
  - apply sent_messages_exchanges.
  - rewrite sent_messages_exchanges. apply List.length_map.
Qed.

(** C9. A websocket that is not yet registered is appended once when the
    session accepts it; whenever the loop is left, through the client's
    disconnect or through any other exception, the handler removes it and
    returns, and the websocket is no longer in [active_connections].  An
    exception leaves the handler only when [accept] itself failed, in which
    case nothing was registered.  The removal also succeeds, and leaves no
    entry behind, when sessions of other websockets have entered and left
    the registry in the meantime. *)
Theorem registry_invariant model manager (ws : websocket) (inputs : list incoming) :
  ~ In ws (active_connections manager) ->
  connect manager ws (Ok tt) = Ok (registered manager ws) /\
  count_occ Nat.eq_dec (active_connections (registered manager ws)) ws = 1 /\
  (forall accept manager' trace out,
      session model manager ws accept inputs = (manager', trace, out) ->
      match out with
      | Waiting =>
          accept = Ok tt /\ loop model inputs [] = (trace, None) /\
          manager' = registered manager ws
      | Returned e =>
          accept = Ok tt /\ loop model inputs [] = (trace, Some e) /\
          manager' = manager /\ ~ In ws (active_connections manager')
      | Propagated e =>
          accept = Raise e /\ manager' = manager
      end) /\
  (forall trace e,
      loop model inputs [] = (trace, Some e) ->
      session model manager ws (Ok tt) inputs = (manager, trace, Returned e)) /\
  (forall others live e,
      Forall (fun s => step_websocket s <> ws) others ->
      run_registry others (registered manager ws) = Ok live ->
      exists manager',
        on_exception live ws e = Ok manager' /\
        ~ In ws (active_connections manager')).
Proof.
  intros Hfresh.
  split; [reflexivity |].
  split; [exact (registered_once _ _ Hfresh) |].
  split; [| split].
  - intros accept manager' trace out. unfold websocket_detect.
    destruct accept as [[] | e0]; cbn [connect bind].
    + fold (registered manager ws).
      destruct (loop model inputs []) as [tr [e |]].
      * rewrite on_exception_disconnects, (disconnect_registered _ _ Hfresh).
        intros H. injection H as <- <- <-. auto.
      * intros H. injection H as <- <- <-. auto.
    + intros H. injection H as <- <- <-. auto.
  - intros trace e Hloop. unfold websocket_detect. cbn [connect bind].
    fold (registered manager ws). rewrite Hloop.
    rewrite on_exception_disconnects, (disconnect_registered _ _ Hfresh).
    reflexivity.
  - intros others live e Hothers Hrun. rewrite on_exception_disconnects.
    pose proof (other_sessions_keep_count ws others _ _ Hothers Hrun) as Hcount.
    rewrite (registered_once _ _ Hfresh) in Hcount.
    unfold disconnect.
    destruct (list_remove_single_occurrence _ ws Hcount) as (rest & -> & Hrest).
    exists {| active_connections := rest |}. split; [reflexivity | exact Hrest].
Qed.

End TransportFacts.

(** ** The readiness queries *)

(** C8. [health_check] always answers, with status "healthy" and
    [model_loaded] true exactly when a model is loaded.  [model_info] fails,
    with status 503, exactly when no model is loaded; otherwise it answers
    with the model's class names and status "ready". *)
Theorem readiness_surface {ndarray : Type}
  (model : option (YOLO ndarray)) (device : option string) :
  (exists loaded,
      health_check model device
      = Ok (JDict [ ("status", JStr "healthy");
                    ("model_loaded", JBool loaded);
                    ("device", device_json device) ]) /\
      (loaded = true <-> model <> None)) /\
  (raises (model_info model device) <-> model = None) /\
  (model = None ->
   model_info model device = Raise (HTTPException 503 "Model not loaded")) /\
  (forall m, model = Some m ->
     exists classes,
       model_info model device
       = Ok (JDict [ ("model_type", JStr "YOLOv8");
                     ("device", device_json device);
                     ("classes", JList (map JStr classes));
                     ("status", JStr "ready") ]) /\
       (forall d, names m = Some d -> classes = dict_values d) /\
       (names m = None -> classes = [])).
Proof.
  split; [| split; [| split]].
  - destruct model as [m |].
    + exists true. split; [reflexivity |]. split; [discriminate | reflexivity].
    + exists false. split; [reflexivity |].
      split; [discriminate | intros H; contradiction].
  - destruct model as [m |]; cbn [model_info]; split.
    + intros [e He]. discriminate He.
    + discriminate.
    + reflexivity.
    + intros _. eexists. reflexivity.
  - intros ->. reflexivity.
  - intros m ->. cbn [model_info].
    destruct (names m) as [d |].
    + exists (dict_values d). split; [reflexivity |].
      split; [intros d' H; injection H as <-; reflexivity | discriminate].
    + exists []. split; [reflexivity |]. split; [discriminate | reflexivity].
Qed.

(** ** The statements on the example environment *)

(** C3 (as stated) fails: neither a text that is not JSON nor a JSON text
    without a "frame" entry is answered with the error message; the loop is
    left instead, and the frame message that follows is never read. *)
Lemma unusable_message_not_answered :
  raises (Demo.json_loads "not json") /\
  ~ answered_as_decode_failure Demo.json_loads Demo.b64decode Demo.Image_open
      Demo.np_array Demo.cvtColor_RGB2BGR (Some Demo.yolo)
      "not json" [Text Demo.frame_text (Ok tt)] [] /\
  Demo.session (Some Demo.yolo) Demo.registry 7 (Ok tt)
    [Text "not json" (Ok tt); Text Demo.frame_text (Ok tt)]
  = (Demo.registry, [Received "not json"], Returned JSONDecodeError) /\
  Demo.json_loads "{}" = Ok (JDict []) /\
  ~ answered_as_decode_failure Demo.json_loads Demo.b64decode Demo.Image_open
      Demo.np_array Demo.cvtColor_RGB2BGR (Some Demo.yolo)
      "{}" [Text Demo.frame_text (Ok tt)] [] /\
  Demo.session (Some Demo.yolo) Demo.registry 7 (Ok tt)
    [Text "{}" (Ok tt); Text Demo.frame_text (Ok tt)]
  = (Demo.registry, [Received "{}"], Returned KeyError).
Proof.
  split; [exists JSONDecodeError; reflexivity |].
  split; [unfold answered_as_decode_failure; vm_compute; intros H; discriminate H |].
  split; [reflexivity |].
  split; [reflexivity |].
  split; [unfold answered_as_decode_failure; vm_compute; intros H; discriminate H |].
  reflexivity.
Qed.

Lemma demo_websocket_is_fresh : ~ In 7 (active_connections Demo.registry).
Proof.
  intros [H | [H | []]]; discriminate H.
Defined.

Lemma unusable_message_ends_session_witness :
  ~ In 7 (active_connections Demo.registry) /\
  Demo.loop (Some Demo.yolo) [Text Demo.frame_text (Ok tt)] []
  = (exchange (Some Demo.yolo) Demo.frame_msg, None) /\
  raises (Demo.json_loads "not json") /\
  exists e,
    respond Demo.json_loads Demo.b64decode Demo.Image_open Demo.np_array
      Demo.cvtColor_RGB2BGR (Some Demo.yolo) "not json" = Raise e /\
    Demo.session (Some Demo.yolo) Demo.registry 7 (Ok tt)
      ([Text Demo.frame_text (Ok tt)]
       ++ Text "not json" (Ok tt) :: [Text Demo.frame_text (Ok tt)])
    = (Demo.registry,
       exchange (Some Demo.yolo) Demo.frame_msg ++ [Received "not json"],
       Returned e).
Proof.
  assert (Hearlier : Demo.loop (Some Demo.yolo) [Text Demo.frame_text (Ok tt)] []
                     = (exchange (Some Demo.yolo) Demo.frame_msg, None))
    by reflexivity.
  assert (Hbad : raises (Demo.json_loads "not json"))
    by (exists JSONDecodeError; reflexivity).
  split; [exact demo_websocket_is_fresh |].
  split; [exact Hearlier |].
  split; [exact Hbad |].
  exact (unusable_message_ends_session string string
           Demo.json_loads Demo.b64decode Demo.Image_open Demo.np_array
           Demo.cvtColor_RGB2BGR (Some Demo.yolo) Demo.registry 7
           [Text Demo.frame_text (Ok tt)] (exchange (Some Demo.yolo) Demo.frame_msg)
           "not json" (Ok tt) [Text Demo.frame_text (Ok tt)]
           demo_websocket_is_fresh Hearlier (or_introl Hbad)).
Defined.

Lemma decode_failure_reported_witness :
  Demo.json_loads Demo.corrupt_text = Ok (JDict Demo.corrupt_fields) /\
  json_getitem (JDict Demo.corrupt_fields) "frame"
  = Ok (JStr "data:image/png;base64,Z2FyYmFnZQ==") /\
  raises (preprocess_frame_try Demo.b64decode Demo.Image_open Demo.np_array
            Demo.cvtColor_RGB2BGR (JStr "data:image/png;base64,Z2FyYmFnZQ==")) /\
  preprocess_frame Demo.b64decode Demo.Image_open Demo.np_array
    Demo.cvtColor_RGB2BGR (JStr "data:image/png;base64,Z2FyYmFnZQ==") = Ok None /\
  Demo.loop (Some Demo.yolo) [Text Demo.corrupt_text (Ok tt)] []
  = Demo.loop (Some Demo.yolo) [] [Received Demo.corrupt_text; Sent error_response].
Proof.
  assert (Hload : Demo.json_loads Demo.corrupt_text = Ok (JDict Demo.corrupt_fields))
    by reflexivity.
  assert (Hframe : json_getitem (JDict Demo.corrupt_fields) "frame"
                   = Ok (JStr "data:image/png;base64,Z2FyYmFnZQ=="))
    by reflexivity.
  assert (Hfail : raises (preprocess_frame_try Demo.b64decode Demo.Image_open
                            Demo.np_array Demo.cvtColor_RGB2BGR
                            (JStr "data:image/png;base64,Z2FyYmFnZQ==")))
    by (exists UnidentifiedImageError; reflexivity).
  split; [exact Hload | split; [exact Hframe | split; [exact Hfail |]]].
  destruct (decode_failure_reported string string
              Demo.json_loads Demo.b64decode Demo.Image_open Demo.np_array
              Demo.cvtColor_RGB2BGR (Some Demo.yolo) Demo.corrupt_text
              (JDict Demo.corrupt_fields) (JStr "data:image/png;base64,Z2FyYmFnZQ==")
              [] [] Hload Hframe Hfail) as (Hnone & Hloop & _).
  split; [exact Hnone | exact Hloop].
Defined.

Lemma demo_frames_decodable :
  Forall (decodable Demo.json_loads Demo.b64decode Demo.Image_open Demo.np_array
            Demo.cvtColor_RGB2BGR) [Demo.frame_msg; Demo.frame_msg].
Proof.
  assert (H : decodable Demo.json_loads Demo.b64decode Demo.Image_open Demo.np_array
                Demo.cvtColor_RGB2BGR Demo.frame_msg).
  { split; [reflexivity |].
    exists (JStr "data:image/png;base64,cGl4ZWxz"). split; reflexivity. }
  apply Forall_cons; [exact H |]. apply Forall_cons; [exact H | apply Forall_nil].
Defined.

Lemma one_result_per_frame_witness :
  Forall (decodable Demo.json_loads Demo.b64decode Demo.Image_open Demo.np_array
            Demo.cvtColor_RGB2BGR) [Demo.frame_msg; Demo.frame_msg] /\
  sent_messages
    (snd (fst (Demo.session (Some Demo.yolo) Demo.registry 7 (Ok tt)
                 (map arrival [Demo.frame_msg; Demo.frame_msg]))))
  = [ JDict [ ("detections", JList (map detection_json Demo.expected));
              ("timestamp", JNull);
              ("frame_count", JInt 7) ];
      JDict [ ("detections", JList (map detection_json Demo.expected));
              ("timestamp", JNull);
              ("frame_count", JInt 7) ] ].
Proof.
  split; [exact demo_frames_decodable |].
  destruct (one_result_per_frame string string
              Demo.json_loads Demo.b64decode Demo.Image_open Demo.np_array
              Demo.cvtColor_RGB2BGR (Some Demo.yolo) Demo.registry 7
              [Demo.frame_msg; Demo.frame_msg] demo_frames_decodable)
    as (Hrun & Hsent & _).
  unfold Demo.session. rewrite Hrun. cbn [fst snd]. rewrite Hsent. reflexivity.
Defined.

Lemma registry_invariant_witness :
  ~ In 7 (active_connections Demo.registry) /\
  Demo.session (Some Demo.yolo) Demo.registry 7 (Ok tt)
    [Text Demo.frame_text (Ok tt); ReceiveRaises WebSocketDisconnect]
  = (Demo.registry, exchange (Some Demo.yolo) Demo.frame_msg,
     Returned WebSocketDisconnect).
Proof.
  split; [exact demo_websocket_is_fresh |].
  destruct (registry_invariant string string
              Demo.json_loads Demo.b64decode Demo.Image_open Demo.np_array
              Demo.cvtColor_RGB2BGR (Some Demo.yolo) Demo.registry 7
              [Text Demo.frame_text (Ok tt); ReceiveRaises WebSocketDisconnect]
              demo_websocket_is_fresh) as (_ & _ & _ & Hexit & _).
  apply Hexit. reflexivity.
Defined.

Lemma readiness_surface_witness :
  (raises (model_info (@None (YOLO string)) (Some "cpu")) <-> @None (YOLO string) = None) /\
  model_info (Some Demo.yolo) (Some "cpu")
  = Ok (JDict [ ("model_type", JStr "YOLOv8");
                ("device", JStr "cpu");
                ("classes", JList [JStr "person"; JStr "bottle"; JStr "banana"; JStr "chair"]);
                ("status", JStr "ready") ]).
Proof.
  split.
  - exact (proj1 (proj2 (readiness_surface (@None (YOLO string)) (Some "cpu")))).
  - reflexivity.
Defined.

(** * Further properties of the backend *)

(** ** Model loading *)

Section LoadingFacts.

Variable ndarray : Type.
Implicit Types (env : Loader ndarray) (g : Globals ndarray).

(** The nested [try] blocks, flattened. *)
Lemma load_trash_model_cases env g :
  load_trash_model env g =
  match cuda_is_available env with
  | Raise _ => (g, Raise load_failed)
  | Ok cuda =>
      match chosen_model env with
      | Raise _ =>
          ({| model := model g; device := Some (device_name cuda) |}, Raise load_failed)
      | Ok m =>
          ({| model := Some m; device := Some (device_name cuda) |},
           match model_to env m (Some (device_name cuda)) with
           | Ok _ => Ok tt
           | Raise _ => Raise load_failed
           end)
      end
  end.
Proof.
  unfold load_trash_model, chosen_model, try_prog, bind_prog, lift, set_device,
    set_model, get_model, get_device, device_name.
  cbn [bind].
  destruct (cuda_is_available env) as [cuda | e0]; [| reflexivity].
  destruct (import_hf_hub_download env) as [[] | e1].
  - destruct (hf_hub_download env) as [path | e2]; cbn [bind].
    + destruct (YOLO_from env path) as [m | e3]; cbn [model device].
      * destruct (model_to env m _) as [[] | e]; reflexivity.
      * destruct (YOLO_base_inner env) as [m | e4]; cbn [model device].
        -- destruct (model_to env m _) as [[] | e]; reflexivity.
        -- destruct (YOLO_base_outer env) as [m | e5]; cbn [model device];
             [destruct (model_to env m _) as [[] | e] |]; reflexivity.
    + destruct (YOLO_base_inner env) as [m | e4]; cbn [model device].
      * destruct (model_to env m _) as [[] | e]; reflexivity.
      * destruct (YOLO_base_outer env) as [m | e5]; cbn [model device];
          [destruct (model_to env m _) as [[] | e] |]; reflexivity.
  - destruct (YOLO_base_outer env) as [m | e5]; cbn [model device];
      [destruct (model_to env m _) as [[] | e] |]; reflexivity.
Qed.

Lemma startup_event_cases env g :
  startup_event env g = load_trash_model env g.
Proof.
  unfold startup_event, bind_prog, ret.
  destruct (load_trash_model env g) as [g' [[] | e]]; reflexivity.
Qed.

(** X1. Whatever the third-party calls do, [load_trash_model] either
    returns with a model in place and [device] set to "cuda" or "cpu", or
    raises the HTTP 500 exception; no other exception leaves it. *)
Theorem load_trash_model_outcomes env g :
  exists g' r,
    load_trash_model env g = (g', r) /\
    ((r = Ok tt /\
      (exists m, model g' = Some m /\ chosen_model env = Ok m) /\
      (device g' = Some "cuda" \/ device g' = Some "cpu")) \/
     r = Raise (HTTPException 500 "Failed to load detection model")).
Proof.
  rewrite load_trash_model_cases.
  destruct (cuda_is_available env) as [cuda | e0];
    [| eexists; eexists; split; [reflexivity | right; reflexivity]].
  destruct (chosen_model env) as [m | e1];
    [| eexists; eexists; split; [reflexivity | right; reflexivity]].
  eexists; eexists; split; [reflexivity |].
  destruct (model_to env m _) as [[] | e]; [left | right; reflexivity].
  split; [reflexivity |]. split; [exists m; split; reflexivity |].
  destruct cuda; [left | right]; reflexivity.
Qed.

(** X2. Which model is loaded: the downloaded trash-specific model when the
    import, the download and its construction succeed; otherwise the base
    model built in the inner handler, and failing that (or when the import
    itself fails) the base model built in the outer handler.  When none can
    be built, [model] keeps its previous value.  [device] is "cuda" exactly
    when CUDA is available. *)
Theorem load_trash_model_choice env g (cuda : bool) :
  cuda_is_available env = Ok cuda ->
  model (fst (load_trash_model env g))
  = match chosen_model env with
    | Ok m => Some m
    | Raise _ => model g
    end /\
  device (fst (load_trash_model env g)) = Some (if cuda then "cuda" else "cpu") /\
  (forall path m,
      import_hf_hub_download env = Ok tt ->
      hf_hub_download env = Ok path ->
      YOLO_from env path = Ok m ->
      model (fst (load_trash_model env g)) = Some m) /\
  (forall e m,
      import_hf_hub_download env = Raise e ->
      YOLO_base_outer env = Ok m ->
      model (fst (load_trash_model env g)) = Some m).
Proof.
  intros Hcuda. rewrite load_trash_model_cases, Hcuda.
  split; [destruct (chosen_model env); reflexivity |].
  split; [destruct (chosen_model env); reflexivity |].
  split.
  - intros path m Himport Hpath Hm. unfold chosen_model.
    rewrite Himport, Hpath. cbn [bind]. rewrite Hm. reflexivity.
  - intros e m Himport Houter. unfold chosen_model.
    rewrite Himport, Houter. reflexivity.
Qed.

(** X3. When no model can be built at start-up, [startup_event] raises the
    HTTP 500 exception and leaves [model] unset: the health query then
    reports [model_loaded] false, the model-info query fails with 503 and
    every detection request yields the empty list. *)
Theorem failed_startup_degrades env (e : exn) :
  chosen_model env = Raise e ->
  snd (startup_event env initial_globals) = Raise load_failed /\
  model (fst (startup_event env initial_globals)) = None /\
  (forall dev,
      health_check (model (fst (startup_event env initial_globals))) dev
      = Ok (JDict [ ("status", JStr "healthy");
                    ("model_loaded", JBool false);
                    ("device", device_json dev) ])) /\
  (forall dev,
      model_info (model (fst (startup_event env initial_globals))) dev
      = Raise (HTTPException 503 "Model not loaded")) /\
  (forall frame : ndarray,
      detect_trash (model (fst (startup_event env initial_globals))) frame = Ok []).
Proof.
  intros Hnone.
  assert (Hstate : model (fst (startup_event env initial_globals)) = None).
  { rewrite startup_event_cases, load_trash_model_cases, Hnone.
    destruct (cuda_is_available env); reflexivity. }
  split.
  { rewrite startup_event_cases, load_trash_model_cases, Hnone.
    destruct (cuda_is_available env); reflexivity. }
  split; [exact Hstate |].
  rewrite Hstate. repeat split; reflexivity.
Qed.

(** X4. After a start-up that returns normally, the health query reports
    [model_loaded] true with device "cuda" or "cpu", and the model-info
    query answers with status "ready". *)
Theorem successful_startup_is_ready env g g' :
  startup_event env g = (g', Ok tt) ->
  exists m d,
    model g' = Some m /\
    device g' = Some d /\
    (d = "cuda" \/ d = "cpu") /\
    health_check (model g') (device g')
    = Ok (JDict [ ("status", JStr "healthy");
                  ("model_loaded", JBool true);
                  ("device", JStr d) ]) /\
    exists classes,
      model_info (model g') (device g')
      = Ok (JDict [ ("model_type", JStr "YOLOv8");
                    ("device", JStr d);
                    ("classes", JList (map JStr classes));
                    ("status", JStr "ready") ]).
Proof.
  rewrite startup_event_cases, load_trash_model_cases.
  destruct (cuda_is_available env) as [cuda | e0]; [| discriminate].
  destruct (chosen_model env) as [m | e1]; [| discriminate].
  destruct (model_to env m _) as [[] | e]; [| discriminate].
  intros H. injection H as <-.
  exists m, (device_name cuda). cbn [model device].
  split; [reflexivity |]. split; [reflexivity |].
  split; [destruct cuda; [left | right]; reflexivity |].
  split; [reflexivity |].
  cbn [model_info device_json]. eexists. reflexivity.
Qed.

(** X5. When a model was built but [model.to(device)] raises, loading
    fails with HTTP 500 although [model] has already been assigned: the
    health query on the resulting state reports [model_loaded] true. *)
Theorem failed_device_move_leaves_model env g (cuda : bool) (m : YOLO ndarray) :
  cuda_is_available env = Ok cuda ->
  chosen_model env = Ok m ->
  raises (model_to env m (Some (if cuda then "cuda" else "cpu"))) ->
  load_trash_model env g
  = ({| model := Some m; device := Some (if cuda then "cuda" else "cpu") |},
     Raise load_failed) /\
  health_check (model (fst (load_trash_model env g)))
               (device (fst (load_trash_model env g)))
  = Ok (JDict [ ("status", JStr "healthy");
                ("model_loaded", JBool true);
                ("device", JStr (if cuda then "cuda" else "cpu")) ]).
Proof.
  intros Hcuda Hm [e He].
  rewrite load_trash_model_cases, Hcuda, Hm. unfold device_name. rewrite He.
  split; reflexivity.
Qed.

End LoadingFacts.

Lemma load_trash_model_choice_witness :
  cuda_is_available Startup.bad_gpu = Ok true /\
  model (fst (load_trash_model Startup.bad_gpu initial_globals)) = Some Demo.yolo /\
  device (fst (load_trash_model Startup.bad_gpu initial_globals)) = Some "cuda".
Proof.
  assert (Hcuda : cuda_is_available Startup.bad_gpu = Ok true) by reflexivity.
  split; [exact Hcuda |].
  destruct (load_trash_model_choice string Startup.bad_gpu initial_globals true Hcuda)
    as (Hmodel & Hdevice & _).
  split; [exact Hmodel | exact Hdevice].
Defined.

Lemma failed_startup_degrades_witness :
  chosen_model Startup.offline = Raise RuntimeError /\
  snd (startup_event Startup.offline initial_globals) = Raise load_failed /\
  model (fst (startup_event Startup.offline initial_globals)) = None.
Proof.
  assert (Hnone : chosen_model Startup.offline = Raise RuntimeError) by reflexivity.
  split; [exact Hnone |].
  destruct (failed_startup_degrades string Startup.offline RuntimeError Hnone)
    as (Hraise & Hstate & _).
  split; [exact Hraise | exact Hstate].
Defined.

Lemma successful_startup_is_ready_witness :
  startup_event Startup.online initial_globals
  = ({| model := Some Demo.yolo; device := Some "cpu" |}, Ok tt) /\
  exists m d,
    model {| model := Some Demo.yolo; device := Some "cpu" |} = Some m /\
    device {| model := Some Demo.yolo; device := Some "cpu" |} = Some d /\
    (d = "cuda" \/ d = "cpu").
Proof.
  assert (Hrun : startup_event Startup.online initial_globals
                 = ({| model := Some Demo.yolo; device := Some "cpu" |}, Ok tt))
    by reflexivity.
  split; [exact Hrun |].
  destruct (successful_startup_is_ready string Startup.online initial_globals _ Hrun)
    as (m & d & Hm & Hd & Hname & _).
  exists m, d. split; [exact Hm |]. split; [exact Hd | exact Hname].
Defined.

Lemma failed_device_move_leaves_model_witness :
  cuda_is_available Startup.bad_gpu = Ok true /\
  chosen_model Startup.bad_gpu = Ok Demo.yolo /\
  raises (model_to Startup.bad_gpu Demo.yolo (Some "cuda")) /\
  load_trash_model Startup.bad_gpu initial_globals
  = ({| model := Some Demo.yolo; device := Some "cuda" |}, Raise load_failed).
Proof.
  assert (Hcuda : cuda_is_available Startup.bad_gpu = Ok true) by reflexivity.
  assert (Hm : chosen_model Startup.bad_gpu = Ok Demo.yolo) by reflexivity.
  assert (Hto : raises (model_to Startup.bad_gpu Demo.yolo (Some "cuda")))
    by (exists RuntimeError; reflexivity).
  split; [exact Hcuda |]. split; [exact Hm |]. split; [exact Hto |].
  exact (proj1 (failed_device_move_leaves_model string Startup.bad_gpu initial_globals
                  true Demo.yolo Hcuda Hm Hto)).
Defined.

(** ** The detector adapter *)








Lemma trash_type_nonempty (raw : string) : trash_type raw <> EmptyString.
Proof.
  unfold trash_type.
  destruct (Str.contains "bottle" (Str.lower raw)); [discriminate |].
  destruct (Str.contains "cup" (Str.lower raw)); [discriminate |].
  destruct (Str.contains "can" (Str.lower raw)); [discriminate |].
  destruct (Str.contains "bag" (Str.lower raw)); [discriminate |].
  destruct (Str.contains "cigarette" (Str.lower raw)); [discriminate |].
  destruct (Str.contains "trash" (Str.lower raw) || Str.contains "garbage" (Str.lower raw))
    eqn:E.
  - destruct raw as [| ch rest]; [discriminate E | discriminate].
  - destruct (existsb _ food_classes); discriminate.
Qed.

Lemma empty_name_not_admitted (c : pyfloat) : is_potential_trash c EmptyString = false.
Proof.
  unfold is_potential_trash. destruct (float_gt c threshold); reflexivity.
Qed.

(** X7. What [detect_trash] never emits: a detection whose confidence is
    not strictly above 0.25, a bounding box without exactly four
    coordinates, an empty display label or an empty raw class name; and
    never more detections than the model reported boxes. *)
Theorem emitted_detections_are_well_formed {ndarray : Type}
  (m : YOLO ndarray) (frame : ndarray) (results : list Results) (ds : list Detection) :
  predict m frame = Ok results ->
  detect_trash (Some m) frame = Ok ds ->
  List.length ds <= List.length (all_boxes results) /\
  forall d, In d ds ->
    float_gt (confidence d) threshold = true /\
    List.length (bbox d) = 4 /\
    class_name d <> EmptyString /\
    original_class d <> EmptyString.
Proof.
  intros Hpred Hrun. split.
  - unfold detect_trash in Hrun.
    destruct (detect_trash_try m frame) as [ds' | e] eqn:Htry;
      cbn [try_except] in Hrun; injection Hrun as <-; [| apply Nat.le_0_l].
    destruct (detect_trash_try_ok m frame results ds' Hpred Htry)
      as (labelled & Hmap & _ & ->).
    rewrite <- Hmap, !List.length_map. apply filter_length_le.
  - intros d Hin.
    destruct (emitted_detection (Some m) frame ds d Hrun Hin)
      as (m' & results' & [box [id name]] & _ & _ & _ & _ & Hadm & ->).
    cbn [admitted] in Hadm.
    assert (Hconf : float_gt (conf box) threshold = true).
    { unfold is_potential_trash in Hadm. apply andb_true_iff in Hadm. apply Hadm. }
    unfold detection_of. destruct (xyxy box) as [[[x1 y1] x2] y2].
    cbn [confidence bbox class_name original_class].
    split; [exact Hconf |]. split; [reflexivity |].
    split; [apply trash_type_nonempty |].
    intros ->. rewrite empty_name_not_admitted in Hadm. discriminate Hadm.
Qed.

Lemma emitted_detections_are_well_formed_witness :
  predict Demo.yolo "pixels" = Ok Demo.reported /\
  detect_trash (Some Demo.yolo) "pixels" = Ok Demo.expected /\
  List.length Demo.expected <= List.length (all_boxes Demo.reported).
Proof.
  assert (Hpred : predict Demo.yolo "pixels" = Ok Demo.reported) by reflexivity.
  assert (Hrun : detect_trash (Some Demo.yolo) "pixels" = Ok Demo.expected) by reflexivity.
  split; [exact Hpred |]. split; [exact Hrun |].
  exact (proj1 (emitted_detections_are_well_formed Demo.yolo "pixels" Demo.reported
                  Demo.expected Hpred Hrun)).
Defined.

Lemma for_each_raises_at {A S : Type} (body : S -> A -> result S) (x : A) (xs : list A) :
  (forall s, raises (body s x)) ->
  In x xs ->
  forall s, raises (for_each body xs s).
Proof.
  intros Hx. induction xs as [| y ys IH]; intros Hin s; [destruct Hin |].
  cbn [for_each].
  destruct (body s y) as [s' | e] eqn:Hy; cbn [bind].
  - destruct Hin as [-> | Hin].
    + destruct (Hx s) as [e He]. congruence.
    + apply IH. exact Hin.
  - exists e. reflexivity.
Qed.

Lemma process_box_unresolved {ndarray : Type} (m : YOLO ndarray) (box : Box) :
  raises (py_int (cls box)) \/
  names m = None \/
  (exists id d, py_int (cls box) = Ok id /\ names m = Some d /\ dict_find d id = None) ->
  forall acc, raises (process_box m acc box).
Proof.
  intros H acc. unfold process_box, getattr_names, dict_getitem.
  destruct (xyxy box) as [[[x1 y1] x2] y2].
  destruct H as [[e He] | [Hnames | (id & d & Hid & Hnames & Hfind)]].
  - rewrite He. exists e. reflexivity.
  - rewrite Hnames. destruct (py_int (cls box)) as [id | e]; cbn [bind].
    + exists AttributeError. reflexivity.
    + exists e. reflexivity.
  - rewrite Hid, Hnames. cbn [bind]. rewrite Hfind. exists KeyError. reflexivity.
Qed.

(** X8. The detection loop is all-or-nothing: when a single reported box
    cannot be resolved (its class value is NaN or infinite, the model has
    no [names], or its class id has no entry in [names]), [detect_trash]
    returns the empty list, whatever the other boxes are. *)
Theorem unresolved_box_discards_all {ndarray : Type}
  (m : YOLO ndarray) (frame : ndarray) (results : list Results) (box : Box) :
  predict m frame = Ok results ->
  In box (all_boxes results) ->
  raises (py_int (cls box)) \/
  names m = None \/
  (exists id d, py_int (cls box) = Ok id /\ names m = Some d /\ dict_find d id = None) ->
  detect_trash (Some m) frame = Ok [].
Proof.
  intros Hpred Hin Hbad. cbn [detect_trash].
  apply try_except_raises. unfold detect_trash_try. rewrite Hpred. cbn [bind].
  unfold all_boxes in Hin. apply in_flat_map in Hin as (r & Hr & Hbox).
  apply (for_each_raises_at (process_result m) r results); [| exact Hr].
  intros acc. unfold process_result.
  destruct (boxes r) as [bs |]; [| destruct Hbox].
  apply (for_each_raises_at (process_box m) box bs); [| exact Hbox].
  apply process_box_unresolved. exact Hbad.
Qed.

Lemma unresolved_box_discards_all_witness :
  predict Demo.nameless "pixels"
  = Ok [ {| boxes := Some [Demo.box_at (9 # 10) 39; Demo.box_at (9 # 10) 80] |} ] /\
  In (Demo.box_at (9 # 10) 80)
     (all_boxes [ {| boxes := Some [Demo.box_at (9 # 10) 39; Demo.box_at (9 # 10) 80] |} ]) /\
  detect_trash (Some Demo.nameless) "pixels" = Ok [].
Proof.
  assert (Hpred : predict Demo.nameless "pixels"
                  = Ok [ {| boxes := Some [Demo.box_at (9 # 10) 39;
                                           Demo.box_at (9 # 10) 80] |} ])
    by reflexivity.
  assert (Hin : In (Demo.box_at (9 # 10) 80)
                   (all_boxes [ {| boxes := Some [Demo.box_at (9 # 10) 39;
                                                  Demo.box_at (9 # 10) 80] |} ]))
    by (right; left; reflexivity).
  split; [exact Hpred |]. split; [exact Hin |].
  apply (unresolved_box_discards_all Demo.nameless "pixels" _ _ Hpred Hin).
  right. right. exists 80%Z, Demo.coco_names.
  split; [reflexivity |]. split; reflexivity.
Defined.

(** X9. The "can" trigger: a class whose lowercased name contains "can"
    is admitted exactly when its confidence exceeds 0.25, whether or not it
    is on the allow-list, and unless the name also contains "bottle" or
    "cup" it is labelled "Aluminum Can". *)
Theorem can_substring_is_aluminum_can (name : string) (c : pyfloat) :
  Str.contains "can" (Str.lower name) = true ->
  is_potential_trash c name = float_gt c threshold /\
  (Str.contains "bottle" (Str.lower name) = false ->
   Str.contains "cup" (Str.lower name) = false ->
   trash_type name = "Aluminum Can").
Proof.
  intros Hcan. split.
  - unfold is_potential_trash. rewrite Hcan.
    rewrite orb_true_r. cbn [orb]. apply andb_true_r.
  - intros Hbottle Hcup. unfold trash_type.
    rewrite Hbottle, Hcup, Hcan. reflexivity.
Qed.

Lemma can_substring_is_aluminum_can_witness :
  Str.contains "can" (Str.lower "Candle") = true /\
  is_potential_trash (Finite (3 # 10)) "Candle" = float_gt (Finite (3 # 10)) threshold /\
  trash_type "Candle" = "Aluminum Can".
Proof.
  assert (H : Str.contains "can" (Str.lower "Candle") = true) by reflexivity.
  split; [exact H |].
  destruct (can_substring_is_aluminum_can "Candle" (Finite (3 # 10)) H) as [Hadm Hlabel].
  split; [exact Hadm |]. apply Hlabel; reflexivity.
Defined.

(** ** The frame decoder *)

Lemma no_comma_split (s : string) :
  Str.contains "," s = false -> Str.split "," s = [s].
Proof.
  induction s as [| c t IH]; intros H; [reflexivity |].
  cbn [Str.contains String.prefix] in H.
  apply orb_false_iff in H as [Hhead Htail].
  cbn [Str.split]. rewrite (IH Htail).
  destruct (Ascii.eqb c ",") eqn:E; [| reflexivity].
  apply Ascii.eqb_eq in E. subst c.
  destruct (ascii_dec "," ","); [| contradiction].
  destruct t; discriminate Hhead.
Qed.

Lemma split_at_first_comma (prefix rest : string) :
  Str.contains "," prefix = false ->
  Str.split "," (prefix ++ String "," rest) = prefix :: Str.split "," rest.
Proof.
  induction prefix as [| c t IH]; intros H.
  - cbn [String.append Str.split]. rewrite Ascii.eqb_refl. reflexivity.
  - cbn [Str.contains String.prefix] in H.
    apply orb_false_iff in H as [Hhead Htail].
    cbn [String.append Str.split]. rewrite (IH Htail).
    destruct (Ascii.eqb c ",") eqn:E; [| reflexivity].
    apply Ascii.eqb_eq in E. subst c.
    destruct (ascii_dec "," ","); [| contradiction].
    destruct t; discriminate Hhead.
Qed.

Section DecoderFacts.

Variable ndarray : Type.
Variable image : Type.
Variable json_loads : string -> result json.
Variable b64decode : string -> result string.
Variable Image_open : string -> result image.
Variable np_array : image -> result ndarray.
Variable cvtColor_RGB2BGR : ndarray -> result ndarray.

Notation preprocess_try :=
  (preprocess_frame_try b64decode Image_open np_array cvtColor_RGB2BGR).
Notation preprocess :=
  (preprocess_frame b64decode Image_open np_array cvtColor_RGB2BGR).
Notation decode :=
  (decode_payload b64decode Image_open np_array cvtColor_RGB2BGR).
Notation reply :=
  (respond json_loads b64decode Image_open np_array cvtColor_RGB2BGR).
Notation loop :=
  (receive_loop json_loads b64decode Image_open np_array cvtColor_RGB2BGR).
Notation session :=
  (websocket_detect json_loads b64decode Image_open np_array cvtColor_RGB2BGR).

Implicit Types (model : option (YOLO ndarray)) (manager : ConnectionManager).

(** X10. Of a data URI only the text between the first and the second
    comma is decoded: the prefix before the first comma and anything after
    a second comma have no influence, and the frame is the result of
    base64-decoding, opening, converting to an array and swapping the
    colour channels of that segment ([None] when any stage raises). *)
Theorem only_second_segment_is_decoded (prefix payload junk : string) :
  Str.contains "," prefix = false ->
  Str.contains "," payload = false ->
  preprocess_try (JStr (prefix ++ "," ++ payload)) = decode payload /\
  preprocess_try (JStr (prefix ++ "," ++ payload ++ "," ++ junk)) = decode payload /\
  preprocess (JStr (prefix ++ "," ++ payload))
  = match decode payload with
    | Ok frame => Ok (Some frame)
    | Raise _ => Ok None
    end.
Proof.
  intros Hprefix Hpayload.
  assert (H1 : preprocess_try (JStr (prefix ++ "," ++ payload)) = decode payload).
  { unfold preprocess_frame_try. cbn [json_split bind].
    change ("," ++ payload)%string with (String "," payload).
    rewrite (split_at_first_comma _ _ Hprefix), (no_comma_split _ Hpayload).
    reflexivity. }
  split; [exact H1 |]. split.
  - unfold preprocess_frame_try. cbn [json_split bind].
    change ("," ++ payload ++ "," ++ junk)%string
      with (String "," (payload ++ String "," junk)).
    rewrite (split_at_first_comma _ _ Hprefix), (split_at_first_comma _ _ Hpayload).
    reflexivity.
  - unfold preprocess_frame. rewrite H1.
    destruct (decode payload); reflexivity.
Qed.

(** X11. A "frame" entry that is not a JSON string (a number, a boolean,
    null, a list or an object) is a decode failure: it is answered with the
    error message and the loop goes on with the next input. *)
Theorem non_string_frame_is_decode_failure model (data : string) (info frame_data : json)
  (rest : list incoming) (trace : list io_event) :
  json_loads data = Ok info ->
  json_getitem info "frame" = Ok frame_data ->
  is_json_string frame_data = false ->
  preprocess frame_data = Ok None /\
  loop model (Text data (Ok tt) :: rest) trace
  = loop model rest (trace ++ [Received data; Sent error_response]).
Proof.
  intros Hload Hframe Hkind.
  assert (Hnone : preprocess frame_data = Ok None)
    by (destruct frame_data; try discriminate Hkind; reflexivity).
  split; [exact Hnone |].
  cbn [receive_loop]. unfold respond.
  rewrite Hload. cbn [bind]. rewrite Hframe. cbn [bind]. rewrite Hnone.
  reflexivity.
Qed.

(** ** The session loop, for arbitrary inputs *)

Lemma loop_trace_prefix model (inputs : list incoming) : forall trace,
  loop model inputs trace
  = (trace ++ fst (loop model inputs []), snd (loop model inputs [])).
Proof.
  induction inputs as [| i inputs IH]; intros trace.
  - cbn. rewrite app_nil_r. reflexivity.
  - cbn [receive_loop]. destruct i as [data send_outcome | e].
    + destruct (reply model data) as [message | e]; [| reflexivity].
      destruct send_outcome as [u | e]; [| reflexivity].
      rewrite (IH (trace ++ _)), (IH ([] ++ _)). cbn [fst snd].
      rewrite <- app_assoc. reflexivity.
    + cbn. rewrite app_nil_r. reflexivity.
Qed.

(** X12. Request/response discipline on every input sequence: the events
    on a connection are (received, sent) pairs, one per message read;
    only when the loop is left can a last received message remain without
    a reply.  The session never sends unasked and never sends two replies
    to one message. *)
Theorem request_response_discipline model (inputs : list incoming) :
  match loop model inputs [] with
  | (trace, None) =>
      paired trace = true /\ List.length trace = 2 * List.length inputs
  | (trace, Some e) =>
      exists answered,
        paired answered = true /\
        List.length answered < 2 * List.length inputs /\
        (trace = answered \/ exists data, trace = answered ++ [Received data])
  end.
Proof.
  induction inputs as [| i inputs IH].
  - cbn. split; reflexivity.
  - cbn [receive_loop]. destruct i as [data send_outcome | e].
    + destruct (reply model data) as [message | e].
      * destruct send_outcome as [u | e].
        -- rewrite loop_trace_prefix.
           destruct (loop model inputs []) as [trace [e |]]; cbn [fst snd].
           ++ destruct IH as (answered & Hpaired & Hlen & Hshape).
              exists ([Received data; Sent message] ++ answered).
              split; [exact Hpaired |].
              split; [cbn [List.length app]; lia |].
              destruct Hshape as [-> | (last & ->)]; [left; reflexivity |].
              right. exists last. reflexivity.
           ++ destruct IH as [Hpaired Hlen].
              split; [exact Hpaired |]. cbn [List.length app]. lia.
        -- exists []. split; [reflexivity |]. split; [cbn [List.length]; lia |].
           right. exists data. reflexivity.
      * exists []. split; [reflexivity |]. split; [cbn [List.length]; lia |].
        right. exists data. reflexivity.
    + exists []. split; [reflexivity |]. split; [cbn [List.length]; lia |].
      left. reflexivity.
Qed.

Lemma loop_exit_is_final model (earlier rest : list incoming) : forall trace trace' e,
  loop model earlier trace = (trace', Some e) ->
  loop model (earlier ++ rest) trace = (trace', Some e).
Proof.
  induction earlier as [| i earlier IH]; intros trace trace' e H.
  - discriminate H.
  - cbn [app receive_loop] in H |- *.
    destruct i as [data send_outcome | e0]; [| exact H].
    destruct (reply model data) as [message | e0]; [| exact H].
    destruct send_outcome as [u | e0]; [| exact H].
    apply IH. exact H.
Qed.

(** X13. Once the loop has been left, nothing that arrives later on the
    connection is read: the outcome of the session, its trace and the
    registry are those of the inputs up to the exit. *)
Theorem nothing_is_read_after_exit model manager (ws : websocket) (accept : result unit)
  (earlier rest : list incoming) (trace : list io_event) (e : exn) :
  loop model earlier [] = (trace, Some e) ->
  session model manager ws accept (earlier ++ rest)
  = session model manager ws accept earlier.
Proof.
  intros Hexit. unfold websocket_detect.
  rewrite (loop_exit_is_final model earlier rest _ _ _ Hexit), Hexit.
  reflexivity.
Qed.

Lemma respond_answerable model (data : string) (info frame_data : json) :
  json_loads data = Ok info ->
  json_getitem info "frame" = Ok frame_data ->
  exists message items,
    reply model data = Ok message /\
    json_getitem message "detections" = Ok (JList items).
Proof.
  intros Hload Hframe. unfold respond.
  rewrite Hload. cbn [bind]. rewrite Hframe. cbn [bind].
  destruct info; try discriminate Hframe.
  destruct (preprocess_total _ _ b64decode Image_open np_array cvtColor_RGB2BGR frame_data)
    as ([frame |] & ->); cbn [bind].
  - destruct (detect_trash_total _ model frame) as (ds & ->). cbn [bind json_get].
    destruct (fields_find fields "timestamp"), (fields_find fields "frame_count");
      cbn [bind]; eexists; eexists; split; reflexivity.
  - exists error_response, []. split; reflexivity.
Qed.

(** X14. Every message that parses to a value with a "frame" entry is
    answered exactly once, with a result or with the error message, and
    every reply carries a "detections" list; after N such messages the
    session has sent N replies and waits for the next message. *)
Theorem every_frame_message_is_answered model (inputs : list incoming) :
  Forall (answerable json_loads) inputs ->
  exists trace,
    loop model inputs [] = (trace, None) /\
    paired trace = true /\
    List.length (sent_messages trace) = List.length inputs /\
    Forall (fun message => exists items,
                json_getitem message "detections" = Ok (JList items))
           (sent_messages trace).
Proof.
  induction inputs as [| i inputs IH]; intros Hall.
  - exists []. repeat split. constructor.
  - inversion Hall as [| ? ? Hi Hrest]; subst.
    destruct Hi as (data & info & frame_data & -> & Hload & Hframe).
    destruct (respond_answerable model data info frame_data Hload Hframe)
      as (message & items & Hreply & Hitems).
    destruct (IH Hrest) as (trace & Hloop & Hpaired & Hlen & Hdets).
    exists ([Received data; Sent message] ++ trace).
    cbn [receive_loop]. rewrite Hreply, loop_trace_prefix, Hloop. cbn [fst snd].
    split; [reflexivity |]. split; [exact Hpaired |].
    unfold sent_messages in *. cbn [flat_map app].
    split; [cbn [List.length]; rewrite Hlen; reflexivity |].
    constructor; [exists items; exact Hitems | exact Hdets].
Qed.

(** X15. When sending a reply fails, the session ends like on any other
    exception: the failed reply is not part of the trace, the websocket is
    removed from the registry and the handler returns. *)
Theorem failed_send_ends_session model manager (ws : websocket)
  (earlier : list incoming) (trace : list io_event)
  (data : string) (message : json) (e : exn) (rest : list incoming) :
  ~ In ws (active_connections manager) ->
  loop model earlier [] = (trace, None) ->
  reply model data = Ok message ->
  session model manager ws (Ok tt) (earlier ++ Text data (Raise e) :: rest)
  = (manager, trace ++ [Received data], Returned e).
Proof.
  intros Hfresh Hearlier Hreply.
  unfold websocket_detect. cbn [connect bind]. fold (registered manager ws).
  rewrite (loop_continues _ _ json_loads b64decode Image_open np_array cvtColor_RGB2BGR
             model earlier _ _ _ Hearlier).
  cbn [receive_loop]. rewrite Hreply.
  rewrite on_exception_disconnects, (disconnect_registered _ _ Hfresh).
  reflexivity.
Qed.

(** X16. A frame that decodes is answered with a regular result message
    even when no model is loaded or inference raises: the detection list is
    then empty, and timestamp and frame_count are echoed as usual. *)
Theorem degraded_model_still_answers model (data : string)
  (fields : list (string * json)) (frame : ndarray) :
  decodable json_loads b64decode Image_open np_array cvtColor_RGB2BGR
    (data, fields, frame) ->
  model = None \/ (exists m, model = Some m /\ raises (detect_trash_try m frame)) ->
  reply model data
  = Ok (JDict [ ("detections", JList []);
                ("timestamp", echoed fields "timestamp" JNull);
                ("frame_count", echoed fields "frame_count" (JInt 0)) ]).
Proof.
  intros Hmsg Hdegraded.
  pose proof (respond_decodable _ _ json_loads b64decode Image_open np_array
                cvtColor_RGB2BGR model (data, fields, frame) Hmsg) as Hreply.
  cbn [fst] in Hreply. rewrite Hreply. unfold answer, result_message.
  assert (Hempty : detect_trash model frame = Ok []).
  { destruct Hdegraded as [-> | (m & -> & Hraises)]; [reflexivity |].
    cbn [detect_trash]. apply try_except_raises. exact Hraises. }
  rewrite Hempty. reflexivity.
Qed.

(** X17. What a reply tells the client: a reply is only ever produced for
    a text that parses to an object with a "frame" entry; it is the error
    message exactly when that entry failed to decode, and otherwise the
    result message of the decoded frame. *)
Theorem reply_reflects_decoding model (data : string) (message : json) :
  reply model data = Ok message ->
  exists fields frame_data,
    json_loads data = Ok (JDict fields) /\
    fields_find fields "frame" = Some frame_data /\
    ((preprocess frame_data = Ok None /\ message = error_response) \/
     (exists frame,
         preprocess frame_data = Ok (Some frame) /\
         message = result_message model fields frame)).
Proof.
  unfold respond. intros H.
  apply bind_ok in H as (info & Hload & H).
  apply bind_ok in H as (frame_data & Hframe & H).
  apply bind_ok in H as (decoded & Hdecode & H).
  destruct info; try discriminate Hframe.
  cbn [json_getitem] in Hframe.
  destruct (fields_find fields "frame") as [v |] eqn:Hfind; [| discriminate Hframe].
  injection Hframe as ->.
  exists fields, frame_data. split; [exact Hload |]. split; [exact Hfind |].
  destruct decoded as [frame |].
  - right. exists frame. split; [exact Hdecode |].
    unfold result_message, echoed.
    destruct (detect_trash_total _ model frame) as (ds & Hds).
    rewrite Hds in H |- *. cbn [bind json_get] in H.
    destruct (fields_find fields "timestamp"), (fields_find fields "frame_count");
      cbn [bind] in H; injection H as <-; reflexivity.
  - left. split; [exact Hdecode |]. injection H as <-. reflexivity.
Qed.

End DecoderFacts.

(** ** The connection registry *)

Lemma list_remove_splits (xs : list websocket) (ws : websocket) :
  match list_remove xs ws with
  | Ok rest =>
      exists before after,
        xs = before ++ ws :: after /\ ~ In ws before /\ rest = before ++ after
  | Raise e => e = ValueError /\ ~ In ws xs
  end.
Proof.
  induction xs as [| y xs IH]; cbn [list_remove].
  - split; [reflexivity | intros []].
  - destruct (Nat.eqb y ws) eqn:E.
    + apply Nat.eqb_eq in E. subst y.
      exists [], xs. split; [reflexivity |]. split; [intros [] | reflexivity].
    + apply Nat.eqb_neq in E.
      destruct (list_remove xs ws) as [rest | e]; cbn [bind].
      * destruct IH as (before & after & -> & Hnot & ->).
        exists (y :: before), after. split; [reflexivity |].
        split; [| reflexivity].
        intros [Heq | Hin]; [exact (E Heq) | exact (Hnot Hin)].
      * destruct IH as [-> Hnot]. split; [reflexivity |].
        intros [Heq | Hin]; [exact (E Heq) | exact (Hnot Hin)].
Qed.

(** X18. [manager.disconnect] removes exactly the first registration of
    the websocket and keeps every other entry in its place; for a websocket
    that is not registered it raises [ValueError]. *)
Theorem disconnect_removes_first_registration (manager : ConnectionManager)
  (ws : websocket) :
  match disconnect manager ws with
  | Ok manager' =>
      exists before after,
        active_connections manager = before ++ ws :: after /\
        ~ In ws before /\
        active_connections manager' = before ++ after
  | Raise e => e = ValueError /\ ~ In ws (active_connections manager)
  end.
Proof.
  unfold disconnect.
  pose proof (list_remove_splits (active_connections manager) ws) as H.
  destruct (list_remove (active_connections manager) ws) as [rest | e];
    cbn [bind active_connections]; exact H.
Qed.

(** X19. Websocket objects are registered at most once: when the registry
    has no duplicates, registering a new websocket keeps it so, and a
    disconnect leaves a registry without duplicates that no longer
    contains the websocket and still contains every other connection. *)
Theorem registry_stays_duplicate_free (manager : ConnectionManager) :
  NoDup (active_connections manager) ->
  (forall ws, ~ In ws (active_connections manager) ->
     NoDup (active_connections (registered manager ws))) /\
  (forall ws manager',
     disconnect manager ws = Ok manager' ->
     NoDup (active_connections manager') /\
     ~ In ws (active_connections manager') /\
     (forall w, w <> ws ->
        (In w (active_connections manager') <-> In w (active_connections manager)))).
Proof.
  intros Hnodup. split.
  - intros ws Hfresh. unfold registered. cbn [active_connections].
    apply NoDup_app; [exact Hnodup | |].
    + constructor; [intros [] | constructor].
    + intros w Hin [<- | []]. exact (Hfresh Hin).
  - intros ws manager' Hleave.
    pose proof (disconnect_removes_first_registration manager ws) as H.
    rewrite Hleave in H. destruct H as (before & after & Hsplit & _ & Hrest).
    rewrite Hsplit in Hnodup. rewrite Hrest.
    split; [exact (NoDup_remove_1 _ _ _ Hnodup) |].
    split; [exact (NoDup_remove_2 _ _ _ Hnodup) |].
    intros w Hne. rewrite Hsplit, !in_app_iff. cbn [In].
    split; [tauto |].
    intros [H | [H | H]]; [tauto | congruence | tauto].
Qed.

Lemma registry_stays_duplicate_free_witness :
  NoDup (active_connections Demo.registry) /\
  NoDup (active_connections (registered Demo.registry 7)).
Proof.
  assert (H : NoDup (active_connections Demo.registry)).
  { repeat constructor; cbn [In]; intros H;
      repeat (destruct H as [H | H]; [discriminate H |]); exact H. }
  split; [exact H |].
  exact (proj1 (registry_stays_duplicate_free Demo.registry H) 7
           demo_websocket_is_fresh).
Defined.

(** ** The readiness queries *)

(** X20. The two readiness queries agree: the model-info query answers
    (with status "ready") exactly when the health query reports
    [model_loaded] true, and fails with 503 exactly when it reports
    false. *)
Theorem readiness_queries_agree {ndarray : Type}
  (model : option (YOLO ndarray)) (device : option string) :
  exists loaded,
    health_check model device
    = Ok (JDict [ ("status", JStr "healthy");
                  ("model_loaded", JBool loaded);
                  ("device", device_json device) ]) /\
    match model_info model device with
    | Ok info => loaded = true /\ json_getitem info "status" = Ok (JStr "ready")
    | Raise e => loaded = false /\ e = HTTPException 503 "Model not loaded"
    end.
Proof.
  destruct model as [m |].
  - exists true. split; [reflexivity |]. cbn [model_info]. split; reflexivity.
  - exists false. split; [reflexivity |]. cbn [model_info]. split; reflexivity.
Qed.

(** ** The further statements on the example environment *)

Lemma only_second_segment_is_decoded_witness :
  Str.contains "," "data:image/png;base64" = false /\
  Str.contains "," "cGl4ZWxz" = false /\
  preprocess_frame Demo.b64decode Demo.Image_open Demo.np_array Demo.cvtColor_RGB2BGR
    (JStr "data:image/png;base64,cGl4ZWxz") = Ok (Some "pixels").
Proof.
  assert (H1 : Str.contains "," "data:image/png;base64" = false) by reflexivity.
  assert (H2 : Str.contains "," "cGl4ZWxz" = false) by reflexivity.
  split; [exact H1 |]. split; [exact H2 |].
  destruct (only_second_segment_is_decoded string string
              Demo.b64decode Demo.Image_open Demo.np_array Demo.cvtColor_RGB2BGR
              "data:image/png;base64" "cGl4ZWxz" "" H1 H2) as (_ & _ & H).
  exact H.
Defined.

Lemma non_string_frame_is_decode_failure_witness :
  json_getitem (JDict [("frame", JInt 5)]) "frame" = Ok (JInt 5) /\
  is_json_string (JInt 5) = false /\
  preprocess_frame Demo.b64decode Demo.Image_open Demo.np_array Demo.cvtColor_RGB2BGR
    (JInt 5) = Ok None.
Proof.
  split; [reflexivity |]. split; [reflexivity |].
  assert (Hload : (fun _ : string => Ok (JDict [("frame", JInt 5)])) "5" 
                  = Ok (JDict [("frame", JInt 5)])) by reflexivity.
  assert (Hframe : json_getitem (JDict [("frame", JInt 5)]) "frame" = Ok (JInt 5))
    by reflexivity.
  assert (Hkind : is_json_string (JInt 5) = false) by reflexivity.
  exact (proj1 (non_string_frame_is_decode_failure string string
                  (fun _ => Ok (JDict [("frame", JInt 5)]))
                  Demo.b64decode Demo.Image_open Demo.np_array Demo.cvtColor_RGB2BGR
                  (Some Demo.yolo) "5" (JDict [("frame", JInt 5)]) (JInt 5) [] []
                  Hload Hframe Hkind)).
Defined.

Lemma nothing_is_read_after_exit_witness :
  Demo.loop (Some Demo.yolo) [Text "not json" (Ok tt)] []
  = ([Received "not json"], Some JSONDecodeError) /\
  Demo.session (Some Demo.yolo) Demo.registry 7 (Ok tt)
    ([Text "not json" (Ok tt)] ++ [Text Demo.frame_text (Ok tt)])
  = Demo.session (Some Demo.yolo) Demo.registry 7 (Ok tt) [Text "not json" (Ok tt)].
Proof.
  assert (Hexit : Demo.loop (Some Demo.yolo) [Text "not json" (Ok tt)] []
                  = ([Received "not json"], Some JSONDecodeError)) by reflexivity.
  split; [exact Hexit |].
  exact (nothing_is_read_after_exit string string
           Demo.json_loads Demo.b64decode Demo.Image_open Demo.np_array
           Demo.cvtColor_RGB2BGR (Some Demo.yolo) Demo.registry 7 (Ok tt)
           [Text "not json" (Ok tt)] [Text Demo.frame_text (Ok tt)]
           [Received "not json"] JSONDecodeError Hexit).
Defined.

Lemma demo_inputs_answerable :
  Forall (answerable Demo.json_loads)
         [Text Demo.frame_text (Ok tt); Text Demo.corrupt_text (Ok tt)].
Proof.
  apply Forall_cons.
  - exists Demo.frame_text, (JDict Demo.frame_fields),
      (JStr "data:image/png;base64,cGl4ZWxz").
    split; [reflexivity |]. split; reflexivity.
  - apply Forall_cons; [| apply Forall_nil].
    exists Demo.corrupt_text, (JDict Demo.corrupt_fields),
      (JStr "data:image/png;base64,Z2FyYmFnZQ==").
    split; [reflexivity |]. split; reflexivity.
Defined.

Lemma every_frame_message_is_answered_witness :
  Forall (answerable Demo.json_loads)
         [Text Demo.frame_text (Ok tt); Text Demo.corrupt_text (Ok tt)] /\
  exists trace,
    Demo.loop (Some Demo.yolo)
      [Text Demo.frame_text (Ok tt); Text Demo.corrupt_text (Ok tt)] [] = (trace, None) /\
    List.length (sent_messages trace) = 2.
Proof.
  split; [exact demo_inputs_answerable |].
  destruct (every_frame_message_is_answered string string
              Demo.json_loads Demo.b64decode Demo.Image_open Demo.np_array
              Demo.cvtColor_RGB2BGR (Some Demo.yolo) _ demo_inputs_answerable)
    as (trace & Hloop & _ & Hlen & _).
  exists trace. split; [exact Hloop | exact Hlen].
Defined.

Lemma failed_send_ends_session_witness :
  ~ In 7 (active_connections Demo.registry) /\
  Demo.loop (Some Demo.yolo) [] [] = ([], None) /\
  Demo.session (Some Demo.yolo) Demo.registry 7 (Ok tt)
    ([] ++ Text Demo.frame_text (Raise RuntimeError) :: [Text Demo.frame_text (Ok tt)])
  = (Demo.registry, [] ++ [Received Demo.frame_text], Returned RuntimeError).
Proof.
  assert (Hearlier : Demo.loop (Some Demo.yolo) [] [] = ([], None)) by reflexivity.
  split; [exact demo_websocket_is_fresh |]. split; [exact Hearlier |].
  apply (failed_send_ends_session string string
           Demo.json_loads Demo.b64decode Demo.Image_open Demo.np_array
           Demo.cvtColor_RGB2BGR (Some Demo.yolo) Demo.registry 7 [] []
           Demo.frame_text
           (result_message (Some Demo.yolo) Demo.frame_fields "pixels")
           RuntimeError [Text Demo.frame_text (Ok tt)]
           demo_websocket_is_fresh Hearlier).
  reflexivity.
Defined.

Lemma demo_frame_decodable :
  decodable Demo.json_loads Demo.b64decode Demo.Image_open Demo.np_array
    Demo.cvtColor_RGB2BGR (Demo.frame_text, Demo.frame_fields, "pixels").
Proof.
  split; [reflexivity |].
  exists (JStr "data:image/png;base64,cGl4ZWxz"). split; reflexivity.
Defined.

Lemma degraded_model_still_answers_witness :
  decodable Demo.json_loads Demo.b64decode Demo.Image_open Demo.np_array
    Demo.cvtColor_RGB2BGR (Demo.frame_text, Demo.frame_fields, "pixels") /\
  raises (detect_trash_try Demo.broken "pixels") /\
  respond Demo.json_loads Demo.b64decode Demo.Image_open Demo.np_array
    Demo.cvtColor_RGB2BGR (Some Demo.broken) Demo.frame_text
  = Ok (JDict [ ("detections", JList []);
                ("timestamp", JNull);
                ("frame_count", JInt 7) ]).
Proof.
  assert (Hraises : raises (detect_trash_try Demo.broken "pixels"))
    by (exists RuntimeError; reflexivity).
  split; [exact demo_frame_decodable |]. split; [exact Hraises |].
  apply (degraded_model_still_answers string string
           Demo.json_loads Demo.b64decode Demo.Image_open Demo.np_array
           Demo.cvtColor_RGB2BGR (Some Demo.broken) Demo.frame_text
           Demo.frame_fields "pixels" demo_frame_decodable).
  right. exists Demo.broken. split; [reflexivity | exact Hraises].
Defined.

Lemma reply_reflects_decoding_witness :
  respond Demo.json_loads Demo.b64decode Demo.Image_open Demo.np_array
    Demo.cvtColor_RGB2BGR (Some Demo.yolo) Demo.corrupt_text = Ok error_response /\
  exists fields frame_data,
    Demo.json_loads Demo.corrupt_text = Ok (JDict fields) /\
    fields_find fields "frame" = Some frame_data.
Proof.
  assert (Hreply : respond Demo.json_loads Demo.b64decode Demo.Image_open Demo.np_array
                     Demo.cvtColor_RGB2BGR (Some Demo.yolo) Demo.corrupt_text
                   = Ok error_response) by reflexivity.
  split; [exact Hreply |].
  destruct (reply_reflects_decoding string string
              Demo.json_loads Demo.b64decode Demo.Image_open Demo.np_array
              Demo.cvtColor_RGB2BGR (Some Demo.yolo) Demo.corrupt_text error_response
              Hreply) as (fields & frame_data & Hload & Hfind & _).
  exists fields, frame_data. split; [exact Hload | exact Hfind].
Defined.

(** ** The API tester *)

Example replace_every_occurrence :
  str_replace "http://httpbin.org" "http" "ws" = "ws://wsbin.org".
Proof. reflexivity. Qed.

Lemma replace_absent (old new s : string) :
  Str.contains old s = false -> replace_from old new 0 s = s.
Proof.
  induction s as [| c t IH]; intros H; [reflexivity |].
  cbn [Str.contains] in H. apply orb_false_iff in H as [Hhead Htail].
  cbn [replace_from]. rewrite Hhead, (IH Htail). reflexivity.
Qed.

(** X21. The websocket URL of the tester: for a base URL "http" ++ rest
    whose rest contains no further "http" (so "http://host:port" and
    "https://host:port" alike), it is "ws" ++ rest ++ "/api/ws/detect";
    the environment variable, when set, takes precedence over the
    argument. *)
Theorem ws_url_of_base_url (environ : option string) (argument rest : string) :
  match environ with Some url => url | None => argument end = ("http" ++ rest)%string ->
  Str.contains "http" rest = false ->
  ws_url (new_tester environ argument) = ("ws" ++ rest ++ "/api/ws/detect")%string /\
  base_url (new_tester environ argument) = ("http" ++ rest)%string /\
  tests_run (new_tester environ argument) = 0 /\
  tests_passed (new_tester environ argument) = 0.
Proof.
  intros Hbase Hrest. unfold new_tester. cbn [ws_url base_url tests_run tests_passed].
  rewrite Hbase. split; [| repeat split].
  unfold str_replace.
  assert (Hhead : replace_from "http" "ws" 0 ("http" ++ rest)
                  = ("ws" ++ replace_from "http" "ws" 0 rest)%string).
  { cbn [String.append replace_from String.prefix String.length Nat.sub].
    destruct (ascii_dec "h" "h"); [| contradiction].
    destruct (ascii_dec "t" "t"); [| contradiction].
    destruct (ascii_dec "p" "p"); [| contradiction].
    destruct rest; reflexivity. }
  rewrite Hhead, (replace_absent _ _ _ Hrest).
  reflexivity.
Qed.

Lemma ws_url_of_base_url_witness :
  match Some "https://trash.example:8001" with
  | Some url => url
  | None => "http://localhost:8001"
  end = ("http" ++ "s://trash.example:8001")%string /\
  Str.contains "http" "s://trash.example:8001" = false /\
  ws_url (new_tester (Some "https://trash.example:8001") "http://localhost:8001")
  = "wss://trash.example:8001/api/ws/detect".
Proof.
  assert (H1 : match Some "https://trash.example:8001" with
               | Some url => url
               | None => "http://localhost:8001"
               end = ("http" ++ "s://trash.example:8001")%string) by reflexivity.
  assert (H2 : Str.contains "http" "s://trash.example:8001" = false) by reflexivity.
  split; [exact H1 |]. split; [exact H2 |].
  exact (proj1 (ws_url_of_base_url (Some "https://trash.example:8001")
                  "http://localhost:8001" "s://trash.example:8001" H1 H2)).
Defined.

Section ClientFacts.

Variable requests_get : string -> option Response.
Variable requests_post : string -> option json -> option Response.
Variable websocket_tests : TrashFinderAPITester -> TrashFinderAPITester.

Notation run := (run_test requests_get requests_post).

(** X22. Bookkeeping of [run_test]: every call counts one more test run;
    it counts one more test passed exactly when it reports success, which
    happens exactly when the request returned with the expected status;
    so [tests_passed] never exceeds [tests_run].  A method other than GET
    or POST makes no request and is reported as a failure with an empty
    body. *)
Theorem run_test_bookkeeping (self : TrashFinderAPITester) (method endpoint : string)
  (expected_status : Z) (data : option json) :
  let url := (base_url self ++ "/" ++ endpoint)%string in
  let request :=
    if String.eqb method "GET" then requests_get url
    else if String.eqb method "POST" then requests_post url data
    else None in
  let outcome := run self method endpoint expected_status data in
  let success := fst (snd outcome) in
  tests_run (fst outcome) = tests_run self + 1 /\
  tests_passed (fst outcome) = tests_passed self + (if success then 1 else 0) /\
  (success = true <->
   exists response, request = Some response /\ status_code response = expected_status) /\
  (tests_passed self <= tests_run self ->
   tests_passed (fst outcome) <= tests_run (fst outcome)) /\
  (method <> "GET" -> method <> "POST" -> snd outcome = (false, JDict [])) /\
  base_url (fst outcome) = base_url self /\
  ws_url (fst outcome) = ws_url self.
Proof.
  cbv zeta. unfold run_test.
  cbn [base_url tests_run tests_passed ws_url].
  set (request := if String.eqb method "GET" then _ else _).
  assert (Hmethod : method <> "GET" -> method <> "POST" -> request = None).
  { intros Hget Hpost. subst request.
    apply String.eqb_neq in Hget, Hpost. rewrite Hget, Hpost. reflexivity. }
  destruct request as [response |].
  - destruct (Z.eqb (status_code response) expected_status) eqn:E;
      cbn [fst snd tests_run tests_passed base_url ws_url].
    + apply Z.eqb_eq in E.
      split; [reflexivity |]. split; [reflexivity |].
      split; [split; [intros _; exists response; split; [reflexivity | exact E]
                    | reflexivity] |].
      split; [lia |].
      split; [intros Hget Hpost; discriminate (Hmethod Hget Hpost) |].
      split; reflexivity.
    + apply Z.eqb_neq in E.
      split; [reflexivity |]. split; [lia |].
      split; [split; [discriminate |
                      intros (r & Hr & Hstatus); injection Hr as <-; contradiction] |].
      split; [lia |].
      split; [intros Hget Hpost; discriminate (Hmethod Hget Hpost) |].
      split; reflexivity.
  - cbn [fst snd tests_run tests_passed base_url ws_url].
    split; [reflexivity |]. split; [lia |].
    split; [split; [discriminate | intros (r & Hr & _); discriminate Hr] |].
    split; [lia |].
    split; [reflexivity |].
    split; reflexivity.
Qed.



End ClientFacts.
